(** * Employee payslip generator: the payslip calculation domain

    A shallow embedding of the TypeScript domain classes
    ([server/classes/Role.ts], [server/classes/Employee.ts],
    [server/classes/PayslipCalculator.ts]), of the in-memory store
    ([server/storage.ts]) and of the two route handlers of
    [server/routes.ts] that call into the domain, followed by the
    properties of the specification.

    A TypeScript [number] is an IEEE 754 binary64 value; it is embedded as
    the kernel's primitive [float], whose operations are the binary64 ones
    ([NaN], the infinities and the two zeros included). *)

From Stdlib Require Import Floats ZArith List Ascii String Bool Lia.
Import ListNotations.

Set Warnings "-register-all".

Local Open Scope string_scope.

(** ** JavaScript values and exceptions *)

Module Js.

Definition number : Set := float.

(** [a <= b], [a >= b] and [a > b] on numbers: false as soon as one side
    is [NaN]. *)
Definition le (a b : number) : bool := PrimFloat.leb a b.
Definition ge (a b : number) : bool := PrimFloat.leb b a.
Definition gt (a b : number) : bool := PrimFloat.ltb b a.
Definition lt (a b : number) : bool := PrimFloat.ltb a b.

(** A [Date] is its time value. *)
Definition Date : Set := number.

(** [new Error(message)]. *)
Record Error : Set := mkError { message : string }.

(** A computation that returns or throws. *)
Inductive Result (A : Type) : Type :=
| Ok (a : A)
| Throw (e : Error).
Arguments Ok {A} a.
Arguments Throw {A} e.

Definition bind {A B : Type} (r : Result A) (k : A -> Result B) : Result B :=
  match r with
  | Ok a => k a
  | Throw e => Throw e
  end.

(** A parameter with a default value: the default replaces [undefined]
    (an omitted argument) only. *)
Definition withDefault {A : Type} (arg : option A) (dflt : A) : A :=
  match arg with
  | Some a => a
  | None => dflt
  end.

(** [Array.prototype.includes] on an array of strings. *)
Definition includes (l : list string) (x : string) : bool :=
  existsb (fun y => String.eqb y x) l.

(** [Array.prototype.indexOf] on an array of strings: the index of the
    first element equal to [x], or [-1]. *)
Fixpoint indexOfFrom (l : list string) (x : string) (i : Z) : Z :=
  match l with
  | [] => (-1)%Z
  | y :: t => if String.eqb y x then i else indexOfFrom t x (i + 1)%Z
  end.

Definition indexOf (l : list string) (x : string) : Z := indexOfFrom l x 0%Z.

(** A value as [JSON.parse] builds it, and [undefined] for what is absent.
    An object is the list of its own properties. *)
Inductive JsValue : Set :=
| JUndefined
| JNull
| JBool (b : bool)
| JNum (n : number)
| JStr (s : string)
| JArr (elements : list JsValue)
| JObj (properties : list (string * JsValue)).

(** [ToBoolean]: what [!v] negates. *)
Definition toBoolean (v : JsValue) : bool :=
  match v with
  | JUndefined | JNull => false
  | JBool b => b
  | JNum n => negb (PrimFloat.eqb n 0%float || PrimFloat.is_nan n)
  | JStr s => negb (String.eqb s "")
  | JArr _ | JObj _ => true
  end.

Fixpoint lookup (properties : list (string * JsValue)) (name : string)
    : option JsValue :=
  match properties with
  | [] => None
  | (k, v) :: t => if String.eqb k name then Some v else lookup t name
  end.

Definition TypeError : Error := mkError "TypeError".

(** Reading the property [name] of [v], for a name that no prototype
    defines: it throws on [undefined] and [null], and is [undefined] on
    every value without that own property. *)
Definition getProperty (v : JsValue) (name : string) : Result JsValue :=
  match v with
  | JUndefined | JNull => Throw TypeError
  | JObj properties =>
      match lookup properties name with
      | Some x => Ok x
      | None => Ok JUndefined
      end
  | _ => Ok JUndefined
  end.

Section ToString.

(** [Number.prototype.toString], a builtin left as a parameter. *)
Variable numberToString : number -> string.

(** The method call [v.toString()]. An array joins its elements with
    commas, [undefined] and [null] elements giving the empty string; an
    object answers with [Object.prototype.toString] unless an own
    property (never a function here) shadows it. *)
Fixpoint toString (v : JsValue) : Result string :=
  match v with
  | JUndefined | JNull => Throw TypeError
  | JBool b => Ok (if b then "true" else "false")
  | JNum n => Ok (numberToString n)
  | JStr s => Ok s
  | JArr elements =>
      let element x :=
        match x with
        | JUndefined | JNull => Ok ""
        | _ => toString x
        end in
      (fix join (l : list JsValue) : Result string :=
         match l with
         | [] => Ok ""
         | [x] => element x
         | x :: t =>
             bind (element x) (fun s =>
             bind (join t) (fun r => Ok (s ++ "," ++ r)))
         end) elements
  | JObj properties =>
      match lookup properties "toString" with
      | Some _ => Throw TypeError
      | None => Ok "[object Object]"
      end
  end.

End ToString.

(** *** A model of the builtin [parseFloat]

    The longest prefix of the string, after leading white space, that is
    a decimal literal (sign, [Infinity], digits, fraction, exponent),
    rounded to the nearest binary64 value, ties to even; [NaN] when there
    is none. White space is the ASCII one. *)

Definition isWhiteSpace (c : Ascii.ascii) : bool :=
  let n := Ascii.nat_of_ascii c in
  Nat.eqb n 32 || (Nat.leb 9 n && Nat.leb n 13).

Fixpoint trimStart (s : string) : string :=
  match s with
  | String c t => if isWhiteSpace c then trimStart t else s
  | EmptyString => s
  end.

Definition digitOf (c : Ascii.ascii) : option Z :=
  let n := Ascii.nat_of_ascii c in
  if Nat.leb 48 n && Nat.leb n 57 then Some (Z.of_nat (n - 48)) else None.

(** The digits at the head of [s], accumulated onto [acc]: the value, the
    number of digits read and the rest of the string. *)
Fixpoint digits (s : string) (acc : Z) (count : Z) : Z * Z * string :=
  match s with
  | String c t =>
      match digitOf c with
      | Some d => digits t (10 * acc + d)%Z (count + 1)%Z
      | None => (acc, count, s)
      end
  | EmptyString => (acc, count, s)
  end.

Definition signOf (s : string) : bool * string :=
  match s with
  | String "-"%char t => (true, t)
  | String "+"%char t => (false, t)
  | _ => (false, s)
  end.

(** The exponent part at the head of [s], or [0] when there is none. *)
Definition exponentOf (s : string) : Z :=
  match s with
  | String c t =>
      if Ascii.eqb c "e"%char || Ascii.eqb c "E"%char then
        let (neg, t') := signOf t in
        let '(e, count, _) := digits t' 0%Z 0%Z in
        if (count =? 0)%Z then 0%Z else if neg then (- e)%Z else e
      else 0%Z
  | EmptyString => 0%Z
  end.

(** The binary64 value nearest to [m * 10 ^ e10], for [m > 0]. A negative
    exponent divides with enough extra bits, the remainder kept as a
    sticky bit. *)
Definition decimalToNumber (neg : bool) (m e10 : Z) : number :=
  let sgn x := if neg then (- x)%Z else x in
  if (m =? 0)%Z then (if neg then (-0)%float else 0%float)
  else if (0 <=? e10)%Z then
    SF2Prim (binary_normalize prec emax (sgn (m * 10 ^ e10)%Z) 0%Z false)
  else
    let d := (10 ^ (- e10))%Z in
    let s := Z.max 0 (Z.log2 d - Z.log2 m + 64)%Z in
    let q := ((m * 2 ^ s) / d)%Z in
    let r := ((m * 2 ^ s) mod d)%Z in
    let sticky := if (r =? 0)%Z then 0%Z else 1%Z in
    SF2Prim (binary_normalize prec emax (sgn (2 * q + sticky)%Z) (- s - 1)%Z false).

Definition parseFloat (s : string) : number :=
  let (neg, s0) := signOf (trimStart s) in
  if String.prefix "Infinity" s0 then
    if neg then neg_infinity else infinity
  else
    let '(i, ni, s1) := digits s0 0%Z 0%Z in
    let '(m, nf, s2) :=
      match s1 with
      | String "."%char t => digits t i 0%Z
      | _ => (i, 0%Z, s1)
      end in
    if (ni + nf =? 0)%Z then nan
    else decimalToNumber neg m (exponentOf s2 - nf)%Z.

(** [push] of one element. *)
Definition push (l : list string) (x : string) : list string := l ++ [x].

(** [splice(index, 1)] for an index that is not negative. *)
Definition splice1 (l : list string) (index : Z) : list string :=
  firstn (Z.to_nat index) l ++ skipn (S (Z.to_nat index)) l.

End Js.

Import Js.

(** ** [server/classes/Role.ts] *)

Module Role.

Record Role : Set := new {
  id : number;
  title : string;
  description : string;
  department : string;
  level : number;
  minSalary : number;
  maxSalary : number;
  responsibilities : list string
}.

Definition getId (this : Role) : number := id this.
Definition getTitle (this : Role) : string := title this.
Definition getDescription (this : Role) : string := description this.
Definition getDepartment (this : Role) : string := department this.
Definition getLevel (this : Role) : number := level this.

Definition getSalaryRange (this : Role) : number * number :=
  (minSalary this, maxSalary this).

Definition getResponsibilities (this : Role) : list string :=
  responsibilities this.

Definition isSalaryInRange (this : Role) (salary : number) : bool :=
  ge salary (minSalary this) && le salary (maxSalary this).

(** The object with [l] as its [responsibilities], every other field as it
    was: what an in-place [push] or [splice] leaves. *)
Definition setResponsibilities (this : Role) (l : list string) : Role :=
  new (id this) (title this) (description this) (department this)
      (level this) (minSalary this) (maxSalary this) l.

(** The two mutators return the object after the call. *)
Definition addResponsibility (this : Role) (responsibility : string) : Role :=
  if negb (includes (responsibilities this) responsibility)
  then setResponsibilities this (push (responsibilities this) responsibility)
  else this.

Definition removeResponsibility (this : Role) (responsibility : string) : Role :=
  let index := indexOf (responsibilities this) responsibility in
  if (index >? -1)%Z
  then setResponsibilities this (splice1 (responsibilities this) index)
  else this.

(** A call of one of the two mutators, and a sequence of such calls. *)
Inductive Mutation : Set :=
| Add (responsibility : string)
| Remove (responsibility : string).

Definition mutate (this : Role) (m : Mutation) : Role :=
  match m with
  | Add responsibility => addResponsibility this responsibility
  | Remove responsibility => removeResponsibility this responsibility
  end.

Definition mutateAll (this : Role) (ms : list Mutation) : Role :=
  fold_left mutate ms this.

End Role.

(** ** [server/classes/Employee.ts] *)

Module Employee.

(** The fields of the abstract class [BaseEmployee]. *)
Record BaseFields : Set := mkBase {
  id : number;
  firstName : string;
  lastName : string;
  email : string;
  role : Role.Role;
  startDate : Date
}.

Record FullTimeEmployee : Set := mkFullTime {
  ftBase : BaseFields;
  annualSalary : number
}.

Record PartTimeEmployee : Set := mkPartTime {
  ptBase : BaseFields;
  hourlyRate : number;
  defaultHoursPerMonth : number
}.

(** A value of static type [BaseEmployee] is an instance of one of the
    two concrete subclasses. *)
Inductive BaseEmployee : Set :=
| FullTime (e : FullTimeEmployee)
| PartTime (e : PartTimeEmployee).

(** The abstract methods of [BaseEmployee]. *)
Class EmployeeMethods (E : Type) : Type := {
  calculateMonthlySalary : E -> number;
  getEmployeeType : E -> string;
  isEligibleForBenefits : E -> bool
}.

Definition newFullTimeEmployee (id : number) (firstName lastName email : string)
    (role : Role.Role) (startDate : Date) (annualSalary : number)
    : FullTimeEmployee :=
  mkFullTime (mkBase id firstName lastName email role startDate) annualSalary.

#[export] Instance FullTimeMethods : EmployeeMethods FullTimeEmployee := {
  calculateMonthlySalary this := (annualSalary this / 12)%float;
  getEmployeeType _ := "full-time";
  isEligibleForBenefits _ := true
}.

Definition getAnnualSalary (this : FullTimeEmployee) : number :=
  annualSalary this.

Definition newPartTimeEmployee (id : number) (firstName lastName email : string)
    (role : Role.Role) (startDate : Date) (hourlyRate : number)
    (defaultHoursPerMonth : option number) : PartTimeEmployee :=
  mkPartTime (mkBase id firstName lastName email role startDate) hourlyRate
             (withDefault defaultHoursPerMonth 80%float).

#[export] Instance PartTimeMethods : EmployeeMethods PartTimeEmployee := {
  calculateMonthlySalary this := (hourlyRate this * defaultHoursPerMonth this)%float;
  getEmployeeType _ := "part-time";
  isEligibleForBenefits _ := false
}.

Definition getHourlyRate (this : PartTimeEmployee) : number := hourlyRate this.

Definition calculatePay (this : PartTimeEmployee) (hoursWorked : number) : number :=
  (hourlyRate this * hoursWorked)%float.

(** Dynamic dispatch on a [BaseEmployee]. *)
#[export] Instance BaseMethods : EmployeeMethods BaseEmployee := {
  calculateMonthlySalary this :=
    match this with
    | FullTime e => calculateMonthlySalary e
    | PartTime e => calculateMonthlySalary e
    end;
  getEmployeeType this :=
    match this with
    | FullTime e => getEmployeeType e
    | PartTime e => getEmployeeType e
    end;
  isEligibleForBenefits this :=
    match this with
    | FullTime e => isEligibleForBenefits e
    | PartTime e => isEligibleForBenefits e
    end
}.

Definition baseFields (this : BaseEmployee) : BaseFields :=
  match this with
  | FullTime e => ftBase e
  | PartTime e => ptBase e
  end.

Definition getFullName (this : BaseEmployee) : string :=
  firstName (baseFields this) ++ " " ++ lastName (baseFields this).
Definition getRole (this : BaseEmployee) : Role.Role := role (baseFields this).
Definition getId (this : BaseEmployee) : number := id (baseFields this).
Definition getEmail (this : BaseEmployee) : string := email (baseFields this).

(** [EmployeeFactory.createEmployee]: a [switch] on the type tag, compared
    with strict equality. *)
Definition createEmployee (id : number) (firstName lastName email type : string)
    (role : Role.Role) (startDate : Date) (salary : number)
    : Result BaseEmployee :=
  if String.eqb type "full-time" then
    Ok (FullTime (newFullTimeEmployee id firstName lastName email role startDate salary))
  else if String.eqb type "part-time" then
    Ok (PartTime (newPartTimeEmployee id firstName lastName email role startDate salary None))
  else
    Throw (mkError ("Unknown employee type: " ++ type)).

End Employee.

(** ** [server/classes/PayslipCalculator.ts] *)

Module PayslipCalculator.

Import Employee.

Record PayslipResult : Set := mkPayslipResult {
  basePay : number;
  overtimePay : number;
  grossPay : number;
  deductions : number;
  netPay : number;
  hoursWorked : number;
  overtimeHours : number
}.

(** The abstract class: its two abstract methods. *)
Class PayslipCalculator (C : Type) : Type := {
  calculateBasePay : C -> number -> number;
  calculateOvertimePay : C -> number -> number
}.

(** The template method, shared by every calculator. *)
Definition calculatePayslip {C : Type} `{PayslipCalculator C} (this : C)
    (hoursWorked : number) (overtimeHours deductions : option number)
    : PayslipResult :=
  let overtimeHours := withDefault overtimeHours 0%float in
  let deductions := withDefault deductions 0%float in
  let basePay := calculateBasePay this hoursWorked in
  let overtimePay := calculateOvertimePay this overtimeHours in
  let grossPay := (basePay + overtimePay)%float in
  let netPay := (grossPay - deductions)%float in
  mkPayslipResult basePay overtimePay grossPay deductions netPay
                  hoursWorked overtimeHours.

Record FullTimePayslipCalculator : Set := newFullTimePayslipCalculator {
  fullTimeEmployee : FullTimeEmployee
}.

#[export] Instance FullTimeCalculator : PayslipCalculator FullTimePayslipCalculator := {
  calculateBasePay this hoursWorked :=
    calculateMonthlySalary (fullTimeEmployee this);
  calculateOvertimePay this overtimeHours :=
    if le overtimeHours 0%float then 0%float
    else
      let hourlyRate := (getAnnualSalary (fullTimeEmployee this) / (52 * 40))%float in
      ((overtimeHours * hourlyRate) * 1.5)%float
}.

Record PartTimePayslipCalculator : Set := newPartTimePayslipCalculator {
  partTimeEmployee : PartTimeEmployee
}.

#[export] Instance PartTimeCalculator : PayslipCalculator PartTimePayslipCalculator := {
  calculateBasePay this hoursWorked :=
    calculatePay (partTimeEmployee this) hoursWorked;
  calculateOvertimePay this overtimeHours :=
    if le overtimeHours 0%float then 0%float
    else ((overtimeHours * getHourlyRate (partTimeEmployee this)) * 1.5)%float
}.

(** A value of static type [PayslipCalculator]. *)
Inductive AnyCalculator : Set :=
| ForFullTime (c : FullTimePayslipCalculator)
| ForPartTime (c : PartTimePayslipCalculator).

#[export] Instance AnyCalculatorMethods : PayslipCalculator AnyCalculator := {
  calculateBasePay this hoursWorked :=
    match this with
    | ForFullTime c => calculateBasePay c hoursWorked
    | ForPartTime c => calculateBasePay c hoursWorked
    end;
  calculateOvertimePay this overtimeHours :=
    match this with
    | ForFullTime c => calculateOvertimePay c overtimeHours
    | ForPartTime c => calculateOvertimePay c overtimeHours
    end
}.

(** [PayslipCalculatorFactory.createCalculator]: the two [instanceof]
    tests cover [BaseEmployee], whose only subclasses are the two above,
    so the final [throw] has no input. *)
Definition createCalculator (employee : BaseEmployee) : Result AnyCalculator :=
  match employee with
  | FullTime e => Ok (ForFullTime (newFullTimePayslipCalculator e))
  | PartTime e => Ok (ForPartTime (newPartTimePayslipCalculator e))
  end.

End PayslipCalculator.

(** ** [shared/schema.ts]: the persisted rows

    A [decimal] column is a string, a [timestamp] a [Date]. *)

Module Schema.

Module InsertRole.
Record t : Set := mk {
  title : string;
  description : string;
  department : string;
  level : number;
  minSalary : string;
  maxSalary : string;
  responsibilities : list string
}.
End InsertRole.

Module Role.
Record t : Set := mk {
  id : number;
  title : string;
  description : string;
  department : string;
  level : number;
  minSalary : string;
  maxSalary : string;
  responsibilities : list string
}.
End Role.

(** [phone] and [status] may be absent from an insert. *)
Module InsertEmployee.
Record t : Set := mk {
  firstName : string;
  lastName : string;
  email : string;
  phone : option string;
  type : string;
  department : string;
  roleId : number;
  salary : string;
  startDate : Date;
  status : option string
}.
End InsertEmployee.

Module Employee.
Record t : Set := mk {
  id : number;
  firstName : string;
  lastName : string;
  email : string;
  phone : option string;
  type : string;
  department : string;
  roleId : number;
  salary : string;
  startDate : Date;
  status : string;
  createdAt : Date
}.
End Employee.

(** [Employee & { role: Role }]. *)
Module EmployeeWithRole.
Record t : Set := mk {
  employee : Employee.t;
  role : Role.t
}.
End EmployeeWithRole.

(** One issue of a failed [safeParse]. *)
Definition ZodIssue : Set := string.

(** The result of [schema.safeParse]. *)
Inductive SafeParse (T : Type) : Type :=
| Success (data : T)
| Failure (errors : list ZodIssue).
Arguments Success {T} data.
Arguments Failure {T} errors.

End Schema.

(** ** [server/storage.ts]: the in-memory store

    A [Map] keeps its entries in insertion order; its keys are compared
    with SameValueZero. The payslip table, which neither handler below
    touches, is left out. *)

Module Storage.

Import Schema.

Definition sameValueZero (a b : number) : bool :=
  PrimFloat.eqb a b || (PrimFloat.is_nan a && PrimFloat.is_nan b).

(** [Map.prototype.get]: a key that is not a number equals no key of a
    map from numbers. *)
Fixpoint mapGet {V : Type} (m : list (number * V)) (key : JsValue) : option V :=
  match m with
  | [] => None
  | (k, v) :: t =>
      match key with
      | JNum n => if sameValueZero k n then Some v else mapGet t key
      | _ => None
      end
  end.

(** [Map.prototype.set]: an existing key keeps its place. *)
Fixpoint mapSet {V : Type} (m : list (number * V)) (key : number) (v : V)
    : list (number * V) :=
  match m with
  | [] => [(key, v)]
  | (k, w) :: t =>
      if sameValueZero k key then (k, v) :: t else (k, w) :: mapSet t key v
  end.

Definition mapValues {V : Type} (m : list (number * V)) : list V := map snd m.

Record MemStorage : Set := mk {
  roles : list (number * Role.t);
  employees : list (number * Employee.t);
  currentRoleId : number;
  currentEmployeeId : number
}.

(** [a || b] on an optional string: [b] when [a] is absent or empty. *)
Definition orElse (a : option string) (b : string) : string :=
  match a with
  | Some s => if String.eqb s "" then b else s
  | None => b
  end.

Definition orNull (a : option string) : option string :=
  match a with
  | Some s => if String.eqb s "" then None else Some s
  | None => None
  end.

Definition getRole (this : MemStorage) (id : number) : option Role.t :=
  mapGet (roles this) (JNum id).

Definition createRole (this : MemStorage) (insertRole : InsertRole.t)
    : Role.t * MemStorage :=
  let id := currentRoleId this in
  let role :=
    Role.mk id (InsertRole.title insertRole) (InsertRole.description insertRole)
      (InsertRole.department insertRole) (InsertRole.level insertRole)
      (InsertRole.minSalary insertRole) (InsertRole.maxSalary insertRole)
      (InsertRole.responsibilities insertRole) in
  (role, mk (mapSet (roles this) id role) (employees this)
            (id + 1)%float (currentEmployeeId this)).

Definition getEmployee (this : MemStorage) (id : JsValue)
    : option EmployeeWithRole.t :=
  match mapGet (employees this) id with
  | None => None
  | Some employee =>
      match mapGet (roles this) (JNum (Employee.roleId employee)) with
      | None => None
      | Some role => Some (EmployeeWithRole.mk employee role)
      end
  end.

Definition getEmployeeByEmail (this : MemStorage) (email : string)
    : option Employee.t :=
  find (fun emp => String.eqb (Employee.email emp) email)
       (mapValues (employees this)).

(** [createEmployee]; [now] is the clock read by [new Date()]. *)
Definition createEmployee (this : MemStorage) (now : Date)
    (insertEmployee : InsertEmployee.t) : Employee.t * MemStorage :=
  let id := currentEmployeeId this in
  let employee :=
    Employee.mk id
      (InsertEmployee.firstName insertEmployee)
      (InsertEmployee.lastName insertEmployee)
      (InsertEmployee.email insertEmployee)
      (orNull (InsertEmployee.phone insertEmployee))
      (InsertEmployee.type insertEmployee)
      (InsertEmployee.department insertEmployee)
      (InsertEmployee.roleId insertEmployee)
      (InsertEmployee.salary insertEmployee)
      (InsertEmployee.startDate insertEmployee)
      (orElse (InsertEmployee.status insertEmployee) "active")
      now in
  (employee, mk (roles this) (mapSet (employees this) id employee)
                (currentRoleId this) (id + 1)%float).

Definition sampleRoles : list InsertRole.t :=
  [ InsertRole.mk "Senior Developer"
      "Responsible for developing and maintaining software applications"
      "engineering" 3%float "75000" "95000"
      ["Code development and review"; "Technical documentation";
       "Mentoring junior developers"];
    InsertRole.mk "Product Manager"
      "Oversees product development and strategy"
      "marketing" 4%float "85000" "110000"
      ["Product roadmap planning"; "Stakeholder management"; "Market research"];
    InsertRole.mk "UI Designer"
      "Creates user interface designs and prototypes"
      "engineering" 2%float "25" "45"
      ["UI/UX design"; "Prototyping"; "Design systems"] ].

Definition sampleEmployees : list InsertEmployee.t :=
  [ InsertEmployee.mk "Sarah" "Johnson" "sarah.johnson@company.com"
      (Some "+1-555-0123") "full-time" "engineering" 1%float "85000"
      1673740800000%float (Some "active");
    InsertEmployee.mk "Mike" "Chen" "mike.chen@company.com"
      (Some "+1-555-0124") "full-time" "marketing" 2%float "95000"
      1660953600000%float (Some "active");
    InsertEmployee.mk "Alex" "Rivera" "alex.rivera@company.com"
      (Some "+1-555-0125") "part-time" "engineering" 3%float "35"
      1686355200000%float (Some "active") ].

(** The constructor, with [initializeSampleData]; [now] is what the clock
    reads while it runs. *)
Definition new (now : Date) : MemStorage :=
  let empty := mk [] [] 1%float 1%float in
  let withRoles :=
    fold_left (fun this role => snd (createRole this role)) sampleRoles empty in
  fold_left (fun this employee => snd (createEmployee this now employee))
            sampleEmployees withRoles.

End Storage.

(** ** [server/routes.ts]: the two handlers that enter the domain *)

Module Routes.

Import PayslipCalculator.

Inductive Body : Set :=
| Message (message : string)
| Invalid (message : string) (errors : list Schema.ZodIssue)
| Payslip (result : PayslipResult)
| Created (employee : Schema.Employee.t).

(** [res.status(status).json(body)]; [res.json(body)] answers 200. *)
Record Response : Set := json { status : Z; body : Body }.

(** The value of a [Role] row as the domain class. *)
Definition roleObjOf (role : Schema.Role.t) : Role.Role :=
  Role.new (Schema.Role.id role) (Schema.Role.title role) (Schema.Role.description role)
    (Schema.Role.department role) (Schema.Role.level role)
    (parseFloat (Schema.Role.minSalary role)) (parseFloat (Schema.Role.maxSalary role))
    (Schema.Role.responsibilities role).

(** *** [POST /api/employees]

    The handler from the result of [insertEmployeeSchema.safeParse(req.body)]
    on; [now] is the clock. Nothing in its [try] block throws. *)
Definition postEmployees (storage : Storage.MemStorage) (now : Date)
    (validation : Schema.SafeParse Schema.InsertEmployee.t) : Response * Storage.MemStorage :=
  match validation with
  | Schema.Failure errors => (json 400 (Invalid "Invalid employee data" errors), storage)
  | Schema.Success data =>
      match Storage.getEmployeeByEmail storage (Schema.InsertEmployee.email data) with
      | Some _ =>
          (json 400 (Message "Employee with this email already exists"), storage)
      | None =>
          match Storage.getRole storage (Schema.InsertEmployee.roleId data) with
          | None => (json 400 (Message "Invalid role ID"), storage)
          | Some role =>
              let roleObj := roleObjOf role in
              if negb (Role.isSalaryInRange roleObj
                         (parseFloat (Schema.InsertEmployee.salary data)))
              then
                (json 400 (Message ("Salary must be between " ++ Schema.Role.minSalary role
                                    ++ " and " ++ Schema.Role.maxSalary role
                                    ++ " for this role")), storage)
              else
                let (employee, storage') := Storage.createEmployee storage now data in
                (json 201 (Created employee), storage')
          end
      end
  end.

(** *** [POST /api/payslips/calculate]

    The handler is instrumented with the log of its calls into the
    domain classes. *)
Inductive Call : Set :=
| CreateEmployee
| CreateCalculator
| CalculatePayslip (hoursWorked overtimeHours deductions : number).

Definition Handler (A : Type) : Type := (Result A * list Call)%type.

Definition ret {A : Type} (a : A) : Handler A := (Ok a, []).

(** A step that makes no call into the domain. *)
Definition step {A : Type} (r : Result A) : Handler A := (r, []).

(** A call into the domain, logged before its result is used. *)
Definition call {A : Type} (c : Call) (r : Result A) : Handler A := (r, [c]).

Definition andThen {A B : Type} (m : Handler A) (k : A -> Handler B) : Handler B :=
  match m with
  | (Ok a, log) => let (r, log') := k a in (r, (log ++ log')%list)
  | (Throw e, log) => (Throw e, log)
  end.

Notation "x <~ m ;; k" := (andThen m (fun x => k))
  (at level 61, m at next level, right associativity).

(** A destructuring default: it replaces [undefined] only. *)
Definition orDefault (v dflt : JsValue) : JsValue :=
  match v with
  | JUndefined => dflt
  | _ => v
  end.

Section Calculate.

Variable numberToString : number -> string.

Definition calculateBody (storage : Storage.MemStorage) (reqBody : JsValue)
    : Handler Response :=
  employeeId <~ step (getProperty reqBody "employeeId") ;;
  hoursWorked <~ step (getProperty reqBody "hoursWorked") ;;
  overtimeHours0 <~ step (getProperty reqBody "overtimeHours") ;;
  deductions0 <~ step (getProperty reqBody "deductions") ;;
  let overtimeHours := orDefault overtimeHours0 (JNum 0%float) in
  let deductions := orDefault deductions0 (JNum 0%float) in
  if negb (toBoolean employeeId) || negb (toBoolean hoursWorked) then
    ret (json 400 (Message "Employee ID and hours worked are required"))
  else
    match Storage.getEmployee storage employeeId with
    | None => ret (json 404 (Message "Employee not found"))
    | Some employeeWithRole =>
        let row := Schema.EmployeeWithRole.employee employeeWithRole in
        let roleObj := roleObjOf (Schema.EmployeeWithRole.role employeeWithRole) in
        employee <~ call CreateEmployee
          (Employee.createEmployee (Schema.Employee.id row) (Schema.Employee.firstName row)
             (Schema.Employee.lastName row) (Schema.Employee.email row) (Schema.Employee.type row)
             roleObj (Schema.Employee.startDate row) (parseFloat (Schema.Employee.salary row))) ;;
        calculator <~ call CreateCalculator (createCalculator employee) ;;
        h <~ step (toString numberToString hoursWorked) ;;
        o <~ step (toString numberToString overtimeHours) ;;
        d <~ step (toString numberToString deductions) ;;
        result <~ call (CalculatePayslip (parseFloat h) (parseFloat o) (parseFloat d))
          (Ok (calculatePayslip calculator (parseFloat h)
                 (Some (parseFloat o)) (Some (parseFloat d)))) ;;
        ret (json 200 (Payslip result))
    end.

(** The [try]/[catch] around the body. *)
Definition postPayslipsCalculate (storage : Storage.MemStorage)
    (reqBody : JsValue) : Response * list Call :=
  match calculateBody storage reqBody with
  | (Ok response, log) => (response, log)
  | (Throw _, log) => (json 500 (Message "Failed to calculate payslip"), log)
  end.

End Calculate.

End Routes.

(** ** More builtins: [parseInt], [Math.round] and numbers in JSON *)

Module Builtins.

Definition hexDigitOf (c : Ascii.ascii) : option Z :=
  let n := Ascii.nat_of_ascii c in
  if Nat.leb 48 n && Nat.leb n 57 then Some (Z.of_nat (n - 48))
  else if Nat.leb 97 n && Nat.leb n 102 then Some (Z.of_nat (n - 87))
  else if Nat.leb 65 n && Nat.leb n 70 then Some (Z.of_nat (n - 55))
  else None.

(** The digits of the given radix (10 or 16) at the head of [s]: their
    value and how many there are. *)
Fixpoint radixDigits (hex : bool) (s : string) (acc : Z) (count : Z) : Z * Z :=
  match s with
  | String c t =>
      match (if hex then hexDigitOf c else digitOf c) with
      | Some d => radixDigits hex t ((if hex then 16 else 10) * acc + d)%Z (count + 1)%Z
      | None => (acc, count)
      end
  | EmptyString => (acc, count)
  end.

(** A model of [parseInt(s)] with no radix: leading ASCII white space and
    a sign are skipped, a [0x] or [0X] prefix selects radix 16, and the
    longest run of digits is read; [NaN] when there is no digit. The
    integer is rounded to the nearest binary64 value. *)
Definition parseInt (s : string) : number :=
  let (neg, s0) := signOf (trimStart s) in
  let (hex, s1) :=
    match s0 with
    | String "0"%char (String c t) =>
        if Ascii.eqb c "x"%char || Ascii.eqb c "X"%char then (true, t) else (false, s0)
    | _ => (false, s0)
    end in
  let (n, count) := radixDigits hex s1 0%Z 0%Z in
  if (count =? 0)%Z then nan
  else decimalToNumber neg n 0%Z.

(** [Math.round]: the integer nearest to [x], a tie going up; [NaN], the
    infinities and the zeros are returned as they are, and a value in
    [[-0.5, 0)] gives [-0]. *)
Definition mathRound (x : number) : number :=
  match Prim2SF x with
  | S754_finite s m e =>
      if (0 <=? e)%Z then x
      else
        let twice := (if s then - (2 * Zpos m) else 2 * Zpos m)%Z in
        let n := ((twice + 2 ^ (- e)) / 2 ^ (- e + 1))%Z in
        if (n =? 0)%Z then (if s then (-0)%float else 0%float)
        else SF2Prim (binary_normalize prec emax n 0%Z false)
  | _ => x
  end.

(** A number after [JSON.stringify] and [JSON.parse]: [NaN] and the
    infinities become [null], [-0] becomes [0], every other number comes
    back as it was. *)
Definition numberThroughJson (n : number) : JsValue :=
  if PrimFloat.is_finite n then
    JNum (if PrimFloat.eqb n 0%float then 0%float else n)
  else JNull.

End Builtins.

(** ** [shared/schema.ts]: partial inserts

    The data of [insertSchema.partial().safeParse]: a field is present or
    absent; a present [phone] may be [null]. *)

Module PartialInsertRole.
Record t : Set := mk {
  title : option string;
  description : option string;
  department : option string;
  level : option number;
  minSalary : option string;
  maxSalary : option string;
  responsibilities : option (list string)
}.
End PartialInsertRole.

Module PartialInsertEmployee.
Record t : Set := mk {
  firstName : option string;
  lastName : option string;
  email : option string;
  phone : option (option string);
  type : option string;
  department : option string;
  roleId : option number;
  salary : option string;
  startDate : option Date;
  status : option string
}.
End PartialInsertEmployee.

(** ** [server/storage.ts]: the other role and employee methods *)

Module StorageCrud.

Import Schema Storage.

(** [Map.prototype.delete]: the map without the entry of that key, and
    whether there was one. *)
Fixpoint mapDelete {V : Type} (m : list (number * V)) (key : number)
    : list (number * V) * bool :=
  match m with
  | [] => ([], false)
  | (k, v) :: t =>
      if sameValueZero k key then (t, true)
      else let (t', found) := mapDelete t key in ((k, v) :: t', found)
  end.

Definition getRoles (this : MemStorage) : list Role.t := mapValues (roles this).

(** [{ ...existing, ...insertRole, responsibilities: ... }]. *)
Definition mergeRole (existing : Role.t) (insertRole : PartialInsertRole.t) : Role.t :=
  Role.mk (Role.id existing)
    (withDefault (PartialInsertRole.title insertRole) (Role.title existing))
    (withDefault (PartialInsertRole.description insertRole) (Role.description existing))
    (withDefault (PartialInsertRole.department insertRole) (Role.department existing))
    (withDefault (PartialInsertRole.level insertRole) (Role.level existing))
    (withDefault (PartialInsertRole.minSalary insertRole) (Role.minSalary existing))
    (withDefault (PartialInsertRole.maxSalary insertRole) (Role.maxSalary existing))
    (withDefault (PartialInsertRole.responsibilities insertRole)
                 (Role.responsibilities existing)).

Definition updateRole (this : MemStorage) (id : number)
    (insertRole : PartialInsertRole.t) : option Role.t * MemStorage :=
  match mapGet (roles this) (JNum id) with
  | None => (None, this)
  | Some existing =>
      let updated := mergeRole existing insertRole in
      (Some updated,
       mk (mapSet (roles this) id updated) (employees this)
          (currentRoleId this) (currentEmployeeId this))
  end.

Definition deleteRole (this : MemStorage) (id : number) : bool * MemStorage :=
  let (roles', found) := mapDelete (roles this) id in
  (found, mk roles' (employees this) (currentRoleId this) (currentEmployeeId this)).

(** [getEmployees]: the employees whose role is in the store, each with
    its role, in the order of the map. *)
Definition getEmployees (this : MemStorage) : list EmployeeWithRole.t :=
  fold_left
    (fun result employee =>
       match mapGet (roles this) (JNum (Employee.roleId employee)) with
       | Some role => (result ++ [EmployeeWithRole.mk employee role])%list
       | None => result
       end)
    (mapValues (employees this)) [].

(** [{ ...existing, ...insertEmployee }]. *)
Definition mergeEmployee (existing : Employee.t)
    (insertEmployee : PartialInsertEmployee.t) : Employee.t :=
  Employee.mk (Employee.id existing)
    (withDefault (PartialInsertEmployee.firstName insertEmployee)
                 (Employee.firstName existing))
    (withDefault (PartialInsertEmployee.lastName insertEmployee)
                 (Employee.lastName existing))
    (withDefault (PartialInsertEmployee.email insertEmployee) (Employee.email existing))
    (withDefault (PartialInsertEmployee.phone insertEmployee) (Employee.phone existing))
    (withDefault (PartialInsertEmployee.type insertEmployee) (Employee.type existing))
    (withDefault (PartialInsertEmployee.department insertEmployee)
                 (Employee.department existing))
    (withDefault (PartialInsertEmployee.roleId insertEmployee)
                 (Employee.roleId existing))
    (withDefault (PartialInsertEmployee.salary insertEmployee)
                 (Employee.salary existing))
    (withDefault (PartialInsertEmployee.startDate insertEmployee)
                 (Employee.startDate existing))
    (withDefault (PartialInsertEmployee.status insertEmployee)
                 (Employee.status existing))
    (Employee.createdAt existing).

Definition updateEmployee (this : MemStorage) (id : number)
    (insertEmployee : PartialInsertEmployee.t) : option Employee.t * MemStorage :=
  match mapGet (employees this) (JNum id) with
  | None => (None, this)
  | Some existing =>
      let updated := mergeEmployee existing insertEmployee in
      (Some updated,
       mk (roles this) (mapSet (employees this) id updated)
          (currentRoleId this) (currentEmployeeId this))
  end.

Definition deleteEmployee (this : MemStorage) (id : number) : bool * MemStorage :=
  let (employees', found) := mapDelete (employees this) id in
  (found, mk (roles this) employees' (currentRoleId this) (currentEmployeeId this)).

Record Stats : Set := mkStats {
  totalEmployees : nat;
  fullTimeEmployees : nat;
  partTimeEmployees : nat;
  monthlyPayroll : number
}.

Definition isActive (emp : Employee.t) : bool := String.eqb (Employee.status emp) "active".
Definition isFullTime (emp : Employee.t) : bool := String.eqb (Employee.type emp) "full-time".
Definition isPartTime (emp : Employee.t) : bool := String.eqb (Employee.type emp) "part-time".

(** One turn of the payroll loop of [getStats]. *)
Definition addToPayroll (monthlyPayroll : number) (employee : Employee.t) : number :=
  let salary := parseFloat (Employee.salary employee) in
  if isFullTime employee then (monthlyPayroll + salary / 12)%float
  else (monthlyPayroll + salary * 80)%float.

Definition getStats (this : MemStorage) : Stats :=
  let employeeList := filter isActive (mapValues (employees this)) in
  let fullTimeEmployees := filter isFullTime employeeList in
  let partTimeEmployees := filter isPartTime employeeList in
  let monthlyPayroll := fold_left addToPayroll employeeList 0%float in
  mkStats (List.length employeeList) (List.length fullTimeEmployees)
          (List.length partTimeEmployees) (Builtins.mathRound monthlyPayroll).

End StorageCrud.

(** ** [server/routes.ts]: the other role and employee handlers

    Each handler from the parsed parameters on: [idParam] is
    [req.params.id], [validation] the result of [safeParse(req.body)].
    Nothing in their [try] blocks throws. *)

Module RoutesCrud.

Import Builtins.

(** What a handler sends. *)
Inductive Reply (A : Type) : Type :=
| Sent (status : Z) (body : A)
| Refused (status : Z) (message : string)
| RefusedInvalid (status : Z) (message : string) (errors : list Schema.ZodIssue).
Arguments Sent {A} status body.
Arguments Refused {A} status message.
Arguments RefusedInvalid {A} status message errors.

Definition getStats (storage : Storage.MemStorage) : Reply StorageCrud.Stats :=
  Sent 200 (StorageCrud.getStats storage).

Definition getRoles (storage : Storage.MemStorage) : Reply (list Schema.Role.t) :=
  Sent 200 (StorageCrud.getRoles storage).

Definition getRolesId (storage : Storage.MemStorage) (idParam : string)
    : Reply Schema.Role.t :=
  let id := parseInt idParam in
  match Storage.getRole storage id with
  | None => Refused 404 "Role not found"
  | Some role => Sent 200 role
  end.

Definition postRoles (storage : Storage.MemStorage)
    (validation : Schema.SafeParse Schema.InsertRole.t)
    : Reply Schema.Role.t * Storage.MemStorage :=
  match validation with
  | Schema.Failure errors => (RefusedInvalid 400 "Invalid role data" errors, storage)
  | Schema.Success data =>
      let (role, storage') := Storage.createRole storage data in
      (Sent 201 role, storage')
  end.

Definition putRolesId (storage : Storage.MemStorage) (idParam : string)
    (validation : Schema.SafeParse PartialInsertRole.t)
    : Reply Schema.Role.t * Storage.MemStorage :=
  let id := parseInt idParam in
  match validation with
  | Schema.Failure errors => (RefusedInvalid 400 "Invalid role data" errors, storage)
  | Schema.Success data =>
      match StorageCrud.updateRole storage id data with
      | (None, storage') => (Refused 404 "Role not found", storage')
      | (Some role, storage') => (Sent 200 role, storage')
      end
  end.

Definition deleteRolesId (storage : Storage.MemStorage) (idParam : string)
    : Reply string * Storage.MemStorage :=
  let id := parseInt idParam in
  match StorageCrud.deleteRole storage id with
  | (false, storage') => (Refused 404 "Role not found", storage')
  | (true, storage') => (Sent 200 "Role deleted successfully", storage')
  end.

Definition getEmployees (storage : Storage.MemStorage)
    : Reply (list Schema.EmployeeWithRole.t) :=
  Sent 200 (StorageCrud.getEmployees storage).

Definition getEmployeesId (storage : Storage.MemStorage) (idParam : string)
    : Reply Schema.EmployeeWithRole.t :=
  let id := parseInt idParam in
  match Storage.getEmployee storage (JNum id) with
  | None => Refused 404 "Employee not found"
  | Some employee => Sent 200 employee
  end.

Definition putEmployeesId (storage : Storage.MemStorage) (idParam : string)
    (validation : Schema.SafeParse PartialInsertEmployee.t)
    : Reply Schema.Employee.t * Storage.MemStorage :=
  let id := parseInt idParam in
  match validation with
  | Schema.Failure errors => (RefusedInvalid 400 "Invalid employee data" errors, storage)
  | Schema.Success data =>
      match StorageCrud.updateEmployee storage id data with
      | (None, storage') => (Refused 404 "Employee not found", storage')
      | (Some employee, storage') => (Sent 200 employee, storage')
      end
  end.

Definition deleteEmployeesId (storage : Storage.MemStorage) (idParam : string)
    : Reply string * Storage.MemStorage :=
  let id := parseInt idParam in
  match StorageCrud.deleteEmployee storage id with
  | (false, storage') => (Refused 404 "Employee not found", storage')
  | (true, storage') => (Sent 200 "Employee deleted successfully", storage')
  end.

End RoutesCrud.

(** ** [client/src/pages/Payslips.tsx]: the calculate button

    The page keeps its fields as strings. [handleCalculate] either refuses
    (a toast, nothing sent) or hands the mutation the object to post. The
    request helper is taken to send that object as JSON, which the server
    parses into [req.body]. *)

Module PayslipsPage.

Import Builtins.

Record CalculateData : Set := mkData {
  employeeId : number;
  hoursWorked : number;
  overtimeHours : number;
  deductions : number
}.

(** [a || b] on strings. *)
Definition orString (a b : string) : string :=
  if String.eqb a "" then b else a.

Definition handleCalculate
    (selectedEmployee hoursWorked payPeriodFrom payPeriodTo overtimeHours deductions
       : string) : option CalculateData :=
  if String.eqb selectedEmployee "" || String.eqb hoursWorked ""
     || String.eqb payPeriodFrom "" || String.eqb payPeriodTo ""
  then None
  else
    Some (mkData (parseInt selectedEmployee) (parseFloat hoursWorked)
                 (parseFloat (orString overtimeHours "0"))
                 (parseFloat (orString deductions "0"))).

(** Modelled from the spec: the request helper [apiRequest]
    ([client/src/lib/queryClient.ts]) is not among the sources. The
    calculate operation takes the four fields of the object as the
    request body; each number is what JSON carries of it. *)
Definition requestBody (data : CalculateData) : JsValue :=
  JObj [("employeeId", numberThroughJson (employeeId data));
        ("hoursWorked", numberThroughJson (hoursWorked data));
        ("overtimeHours", numberThroughJson (overtimeHours data));
        ("deductions", numberThroughJson (deductions data))].

End PayslipsPage.

(** ** What a store built by the methods satisfies *)

Module StoreInvariant.

Import Storage.

(** No two entries of the map have the same key. *)
Fixpoint distinctKeys {V : Type} (m : list (number * V)) : bool :=
  match m with
  | [] => true
  | (k, _) :: t =>
      negb (existsb (fun entry => sameValueZero (fst entry) k) t) && distinctKeys t
  end.

Definition wellKeyed (this : MemStorage) : bool :=
  distinctKeys (roles this) && distinctKeys (employees this).

(** The emails of the stored employees, in the order of the map. *)
Definition emails (this : MemStorage) : list string :=
  map Schema.Employee.email (mapValues (employees this)).

(** Every row is filed under its own [id]. *)
Definition idsAreKeys (this : MemStorage) : Prop :=
  Forall (fun entry => sameValueZero (Schema.Role.id (snd entry)) (fst entry) = true)
         (roles this) /\
  Forall (fun entry => sameValueZero (Schema.Employee.id (snd entry)) (fst entry) = true)
         (employees this).

(** The stores that the constructor and the role and employee methods
    produce. *)
Inductive reachable : MemStorage -> Prop :=
| reach_new (now : Date) : reachable (Storage.new now)
| reach_createRole (this : MemStorage) (insertRole : Schema.InsertRole.t) :
    reachable this -> reachable (snd (createRole this insertRole))
| reach_updateRole (this : MemStorage) (id : number) (insertRole : PartialInsertRole.t) :
    reachable this -> reachable (snd (StorageCrud.updateRole this id insertRole))
| reach_deleteRole (this : MemStorage) (id : number) :
    reachable this -> reachable (snd (StorageCrud.deleteRole this id))
| reach_createEmployee (this : MemStorage) (now : Date)
    (insertEmployee : Schema.InsertEmployee.t) :
    reachable this -> reachable (snd (createEmployee this now insertEmployee))
| reach_updateEmployee (this : MemStorage) (id : number)
    (insertEmployee : PartialInsertEmployee.t) :
    reachable this -> reachable (snd (StorageCrud.updateEmployee this id insertEmployee))
| reach_deleteEmployee (this : MemStorage) (id : number) :
    reachable this -> reachable (snd (StorageCrud.deleteEmployee this id)).

End StoreInvariant.

(** * Properties *)

(** ** Order of binary64 values *)

Section FloatOrder.

Local Open Scope float_scope.

Lemma SFcompare_refl (x : spec_float) :
  x <> S754_nan -> SFcompare x x = Some Eq.
Proof.
  destruct x as [s | s | | s m e]; simpl; intros H; try congruence.
  - now destruct s.
  - destruct s; rewrite Z.compare_refl, Pos.compare_cont_refl; reflexivity.
Qed.

Lemma SFcompare_antisym (x y : spec_float) :
  SFcompare y x = option_map CompOpp (SFcompare x y).
Proof.
  destruct x as [s | s | | s m e], y as [s' | s' | | s' m' e']; simpl;
    try reflexivity; try (destruct s; reflexivity); try (destruct s'; reflexivity);
    try (destruct s, s'; reflexivity).
  pose proof (Pos.compare_antisym m m') as A. unfold Pos.compare in A.
  destruct s, s'; try reflexivity;
    rewrite (Z.compare_antisym e e'); destruct (e ?= e')%Z; simpl; try reflexivity;
    rewrite A; try rewrite CompOpp_involutive; reflexivity.
Qed.

Lemma leb_refl_left (a b : float) : (a <=? b) = true -> (a <=? a) = true.
Proof.
  rewrite !leb_spec. unfold SFleb. intros H.
  rewrite SFcompare_refl; [reflexivity |].
  intros E. rewrite E in H. discriminate H.
Qed.

Lemma leb_refl_right (a b : float) : (a <=? b) = true -> (b <=? b) = true.
Proof.
  rewrite !leb_spec. unfold SFleb. intros H.
  rewrite SFcompare_refl; [reflexivity |].
  intros E. rewrite E in H. destruct (Prim2SF a); discriminate H.
Qed.

Lemma ltb_leb_false (a b : float) : (a <? b) = true -> (b <=? a) = false.
Proof.
  rewrite ltb_spec, leb_spec. unfold SFltb, SFleb.
  rewrite (SFcompare_antisym (Prim2SF a) (Prim2SF b)).
  destruct (SFcompare (Prim2SF a) (Prim2SF b)) as [[ | | ] | ]; simpl;
    intros H; try discriminate H; reflexivity.
Qed.

Lemma ltb_leb (a b : float) : (a <? b) = true -> (a <=? b) = true.
Proof.
  rewrite ltb_spec, leb_spec. unfold SFltb, SFleb.
  destruct (SFcompare (Prim2SF a) (Prim2SF b)) as [[ | | ] | ];
    intros H; try discriminate H; reflexivity.
Qed.

Lemma leb_nan_left (a : float) : (nan <=? a) = false.
Proof. rewrite leb_spec. reflexivity. Qed.

Lemma leb_nan_right (a : float) : (a <=? nan) = false.
Proof.
  rewrite leb_spec. unfold SFleb.
  change (Prim2SF nan) with S754_nan.
  destruct (Prim2SF a); reflexivity.
Qed.

End FloatOrder.

(** ** The payslip calculators *)

Section Payslips.

Import Employee PayslipCalculator.
Local Open Scope float_scope.

(** Claim C1. For a full-time employee, the calculator that the factory
    selects pays as base the monthly salary [annualSalary / 12], whatever
    [hoursWorked] is, and as overtime [0] when [overtimeHours <= 0] and
    [overtimeHours * (annualSalary / (52 * 40)) * 1.5] otherwise; an
    omitted [overtimeHours] counts as [0]. *)
Theorem fullTime_payslip_formulas (e : FullTimeEmployee) :
  exists c : AnyCalculator,
    createCalculator (FullTime e) = Ok c /\
    forall (hoursWorked : number) (overtimeHours deductions : option number),
      let result := calculatePayslip c hoursWorked overtimeHours deductions in
      let overtime := withDefault overtimeHours 0 in
      basePay result = annualSalary e / 12 /\
      basePay result = calculateMonthlySalary e /\
      (forall hoursWorked' : number,
         basePay (calculatePayslip c hoursWorked' overtimeHours deductions)
         = basePay result) /\
      overtimePay result =
        if le overtime 0 then 0
        else (overtime * (annualSalary e / (52 * 40))) * 1.5.
Proof.
  eexists. split; [reflexivity |].
  intros h o d. cbn. repeat split.
Qed.

(** Claim C2. For a part-time employee, the calculator that the factory
    selects pays as base [hourlyRate * hoursWorked], and as overtime [0]
    when [overtimeHours <= 0] (at [0] and at every negative value) and
    [overtimeHours * hourlyRate * 1.5] otherwise. *)
Theorem partTime_payslip_formulas (e : PartTimeEmployee) :
  exists c : AnyCalculator,
    createCalculator (PartTime e) = Ok c /\
    (forall (hoursWorked : number) (overtimeHours deductions : option number),
       let result := calculatePayslip c hoursWorked overtimeHours deductions in
       let overtime := withDefault overtimeHours 0 in
       basePay result = hourlyRate e * hoursWorked /\
       overtimePay result =
         if le overtime 0 then 0 else (overtime * hourlyRate e) * 1.5) /\
    (forall (hoursWorked : number) (deductions : option number),
       overtimePay (calculatePayslip c hoursWorked (Some 0) deductions) = 0) /\
    (forall (hoursWorked overtimeHours : number) (deductions : option number),
       lt overtimeHours 0 = true ->
       overtimePay (calculatePayslip c hoursWorked (Some overtimeHours) deductions)
       = 0).
Proof.
  eexists. split; [reflexivity |]. split; [| split].
  - intros h o d. cbn. split; reflexivity.
  - intros h d. reflexivity.
  - intros h o d Hneg. cbn. unfold le.
    rewrite (ltb_leb _ _ Hneg). reflexivity.
Qed.

Lemma partTime_payslip_formulas_witness :
  lt (-5) 0 = true /\
  exists c : AnyCalculator,
    createCalculator
      (PartTime (newPartTimeEmployee 3 "Alex" "Rivera" "alex.rivera@company.com"
                   (Role.new 3 "UI Designer" "" "engineering" 2 25 45 [])
                   1686355200000 25 None)) = Ok c /\
    overtimePay (calculatePayslip c 80 (Some (-5)) (Some 50)) = 0.
Proof.
  split; [reflexivity |].
  destruct (partTime_payslip_formulas
              (newPartTimeEmployee 3 "Alex" "Rivera" "alex.rivera@company.com"
                 (Role.new 3 "UI Designer" "" "engineering" 2 25 45 [])
                 1686355200000 25 None)) as [c [Hc [_ [_ Hneg]]]].
  exists c. split; [exact Hc |].
  apply Hneg. reflexivity.
Defined.

(** Claim C3. Whatever the calculator (the property is the template
    method's, so it holds for each subclass) and whatever the inputs, the
    result has [grossPay = basePay + overtimePay] and
    [netPay = grossPay - deductions], and its [deductions], [hoursWorked]
    and [overtimeHours] are the arguments, an omitted optional argument
    being [0]. *)
Theorem payslip_result_relations (C : Type) (I : PayslipCalculator C) (c : C)
    (h : number) (o d : option number) :
  let result := calculatePayslip c h o d in
  grossPay result = basePay result + overtimePay result /\
  netPay result = grossPay result - deductions result /\
  deductions result = withDefault d 0 /\
  hoursWorked result = h /\
  overtimeHours result = withDefault o 0 /\
  (forall o' d' : number,
     let given := calculatePayslip c h (Some o') (Some d') in
     deductions given = d' /\ overtimeHours given = o').
Proof.
  cbn. repeat split.
Qed.

(** Claim C9. For each employee variant the factory yields a calculator
    (it does not throw), and for all numbers given, negative ones
    included, [calculatePayslip] returns the result of the unguarded
    formulas: nothing on the way tests the sign of [hoursWorked] or of
    [deductions], and a negative figure can come out. *)
Theorem calculatePayslip_never_throws (e : BaseEmployee) (h o d : number) :
  (exists c : AnyCalculator,
     createCalculator e = Ok c /\
     let base := match e with
                 | FullTime f => annualSalary f / 12
                 | PartTime p => hourlyRate p * h
                 end in
     let overtime :=
       if le o 0 then 0
       else match e with
            | FullTime f => (o * (annualSalary f / (52 * 40))) * 1.5
            | PartTime p => (o * hourlyRate p) * 1.5
            end in
     calculatePayslip c h (Some o) (Some d)
     = mkPayslipResult base overtime (base + overtime) d
         ((base + overtime) - d) h o) /\
  (exists (p : PartTimeEmployee) (c : AnyCalculator),
     createCalculator (PartTime p) = Ok c /\
     let result := calculatePayslip c (-10) (Some (-2)) (Some (-1)) in
     lt (basePay result) 0 = true /\ lt (netPay result) 0 = true /\
     hoursWorked result = -10 /\ overtimeHours result = -2 /\
     deductions result = -1).
Proof.
  split.
  - destruct e as [f | p]; eexists; (split; [reflexivity |]); cbn;
      destruct (le o 0); reflexivity.
  - exists (mkPartTime (mkBase 3 "Alex" "Rivera" "alex.rivera@company.com"
                          (Role.new 3 "UI Designer" "" "engineering" 2 25 45 [])
                          1686355200000) 25 80).
    eexists. split; [reflexivity |]. vm_compute. repeat split.
Qed.

(** The worked examples of the specification, on the calculators that the
    two factories build. *)
Example fullTime_96000_no_hours :
  match createEmployee 1 "Sarah" "Johnson" "sarah.johnson@company.com" "full-time"
          (Role.new 1 "Senior Developer" "" "engineering" 3 75000 120000 [])
          1673740800000 96000 with
  | Ok e =>
      match createCalculator e with
      | Ok c =>
          calculatePayslip c 0 (Some 0) (Some 0)
          = mkPayslipResult 8000 0 8000 0 8000 0 0 /\
          calculatePayslip c 0 None None = calculatePayslip c 0 (Some 0) (Some 0) /\
          lt 692.25 (overtimePay (calculatePayslip c 160 (Some 10) None)) = true /\
          lt (overtimePay (calculatePayslip c 160 (Some 10) None)) 692.375 = true
      | Throw _ => False
      end
  | Throw _ => False
  end.
Proof.
  vm_compute. repeat split.
Qed.

Example partTime_25_per_hour :
  match createEmployee 3 "Alex" "Rivera" "alex.rivera@company.com" "part-time"
          (Role.new 3 "UI Designer" "" "engineering" 2 25 45 [])
          1686355200000 25 with
  | Ok e =>
      match createCalculator e with
      | Ok c =>
          calculatePayslip c 80 (Some 5) (Some 50)
          = mkPayslipResult 2000 187.5 2187.5 50 2137.5 80 5
      | Throw _ => False
      end
  | Throw _ => False
  end.
Proof.
  reflexivity.
Qed.

End Payslips.

(** ** Employees and their factory *)

Section Employees.

Import Employee.
Local Open Scope float_scope.

(** Claim C7. A full-time employee has monthly salary [annualSalary / 12],
    type ["full-time"] and is eligible for benefits; a part-time employee
    has monthly salary [hourlyRate * defaultHoursPerMonth], type
    ["part-time"] and is not eligible. The same answers come through a
    reference of static type [BaseEmployee]. *)
Theorem employee_variant_methods :
  (forall e : FullTimeEmployee,
     calculateMonthlySalary e = annualSalary e / 12 /\
     getEmployeeType e = "full-time" /\
     isEligibleForBenefits e = true /\
     calculateMonthlySalary (FullTime e) = annualSalary e / 12 /\
     getEmployeeType (FullTime e) = "full-time" /\
     isEligibleForBenefits (FullTime e) = true) /\
  (forall e : PartTimeEmployee,
     calculateMonthlySalary e = hourlyRate e * defaultHoursPerMonth e /\
     getEmployeeType e = "part-time" /\
     isEligibleForBenefits e = false /\
     calculateMonthlySalary (PartTime e) = hourlyRate e * defaultHoursPerMonth e /\
     getEmployeeType (PartTime e) = "part-time" /\
     isEligibleForBenefits (PartTime e) = false) /\
  (forall (id : number) (firstName lastName email : string) (role : Role.Role)
          (startDate : Date) (salary : number),
     calculateMonthlySalary
       (newFullTimeEmployee id firstName lastName email role startDate salary)
     = salary / 12 /\
     calculateMonthlySalary
       (newPartTimeEmployee id firstName lastName email role startDate salary None)
     = salary * 80).
Proof.
  repeat split.
Qed.

(** Claim C4. [createEmployee] builds a full-time employee whose
    [annualSalary] is the compensation for the type ["full-time"], a
    part-time employee whose [hourlyRate] is the compensation and whose
    [defaultHoursPerMonth] is [80] for ["part-time"], and throws
    [Unknown employee type: <type>] for every other type: no other type
    yields an employee. *)
Theorem createEmployee_by_type (id : number) (firstName lastName email : string)
    (role : Role.Role) (startDate : Date) (salary : number) :
  createEmployee id firstName lastName email "full-time" role startDate salary
  = Ok (FullTime (mkFullTime (mkBase id firstName lastName email role startDate)
                             salary)) /\
  createEmployee id firstName lastName email "part-time" role startDate salary
  = Ok (PartTime (mkPartTime (mkBase id firstName lastName email role startDate)
                             salary 80)) /\
  (forall type : string,
     type <> "full-time" -> type <> "part-time" ->
     createEmployee id firstName lastName email type role startDate salary
     = Throw (mkError ("Unknown employee type: " ++ type))) /\
  (forall (type : string) (e : BaseEmployee),
     createEmployee id firstName lastName email type role startDate salary = Ok e ->
     type = "full-time" \/ type = "part-time").
Proof.
  split; [reflexivity |]. split; [reflexivity |]. split.
  - intros type Hft Hpt. unfold createEmployee.
    apply String.eqb_neq in Hft. apply String.eqb_neq in Hpt.
    rewrite Hft, Hpt. reflexivity.
  - intros type e. unfold createEmployee.
    destruct (String.eqb_spec type "full-time") as [-> | _]; [now left |].
    destruct (String.eqb_spec type "part-time") as [-> | _]; [now right |].
    discriminate.
Qed.

Lemma createEmployee_by_type_witness :
  createEmployee 7 "Kim" "Lee" "kim.lee@company.com" "contractor"
    (Role.new 1 "Senior Developer" "" "engineering" 3 75000 95000 [])
    1673740800000 80000
  = Throw (mkError "Unknown employee type: contractor").
Proof.
  apply (createEmployee_by_type 7 "Kim" "Lee" "kim.lee@company.com"
           (Role.new 1 "Senior Developer" "" "engineering" 3 75000 95000 [])
           1673740800000 80000); discriminate.
Defined.

End Employees.

(** ** Roles *)

Section Roles.

Import Role.

(** Claim C6, as the code has it. For a role whose band has
    [minSalary <= maxSalary], [isSalaryInRange] answers [true] exactly for
    the candidates with [minSalary <= candidate <= maxSalary]: [true] at
    both bounds, [false] at every candidate strictly below [minSalary] or
    strictly above [maxSalary], hence at [minSalary - eps] and at
    [maxSalary + eps] whenever that difference is below [minSalary] and
    that sum above [maxSalary]. A binary64 difference or sum with a tiny
    [eps] rounds back to the bound itself, where the answer is [true]. The
    predicate is a total function to [bool]: it changes nothing and does
    not throw, a [NaN] candidate being answered [false]. *)
Theorem isSalaryInRange_inclusive (role : Role) :
  le (minSalary role) (maxSalary role) = true ->
  (forall candidate : number,
     isSalaryInRange role candidate = true <->
     le (minSalary role) candidate = true /\ le candidate (maxSalary role) = true) /\
  isSalaryInRange role (minSalary role) = true /\
  isSalaryInRange role (maxSalary role) = true /\
  (forall candidate : number,
     lt candidate (minSalary role) = true -> isSalaryInRange role candidate = false) /\
  (forall candidate : number,
     gt candidate (maxSalary role) = true -> isSalaryInRange role candidate = false) /\
  (forall eps : number,
     lt (minSalary role - eps)%float (minSalary role) = true ->
     isSalaryInRange role (minSalary role - eps)%float = false) /\
  (forall eps : number,
     gt (maxSalary role + eps)%float (maxSalary role) = true ->
     isSalaryInRange role (maxSalary role + eps)%float = false) /\
  isSalaryInRange role nan = false.
Proof.
  intros Hband.
  assert (Hbelow : forall c, lt c (minSalary role) = true ->
                             isSalaryInRange role c = false).
  { intros c Hc. unfold isSalaryInRange, ge.
    rewrite (ltb_leb_false _ _ Hc). reflexivity. }
  assert (Habove : forall c, gt c (maxSalary role) = true ->
                             isSalaryInRange role c = false).
  { intros c Hc. unfold isSalaryInRange, le.
    rewrite (ltb_leb_false _ _ Hc). apply andb_false_r. }
  split.
  { intros c. unfold isSalaryInRange, ge. apply andb_true_iff. }
  split.
  { unfold isSalaryInRange, ge, le.
    rewrite (leb_refl_left _ _ Hband). exact Hband. }
  split.
  { unfold isSalaryInRange, ge, le in *.
    rewrite Hband. exact (leb_refl_right _ _ Hband). }
  split; [exact Hbelow |]. split; [exact Habove |].
  split; [intros eps; apply Hbelow |]. split; [intros eps; apply Habove |].
  unfold isSalaryInRange, ge. now rewrite leb_nan_right.
Qed.

Lemma isSalaryInRange_inclusive_witness :
  let role := new 1%float "Senior Developer" "" "engineering" 3%float
                  75000%float 95000%float [] in
  le (minSalary role) (maxSalary role) = true /\
  isSalaryInRange role 75000%float = true /\
  isSalaryInRange role 95000%float = true /\
  isSalaryInRange role (75000 - 0.25)%float = false /\
  isSalaryInRange role (95000 + 0.25)%float = false.
Proof.
  split; [reflexivity |].
  pose proof (isSalaryInRange_inclusive
                (new 1%float "Senior Developer" "" "engineering" 3%float
                     75000%float 95000%float []) eq_refl)
    as [_ [Hmin [Hmax [_ [_ [Hlo [Hhi _]]]]]]].
  split; [exact Hmin |]. split; [exact Hmax |]. split.
  - apply (Hlo 0.25%float). reflexivity.
  - apply (Hhi 0.25%float). reflexivity.
Defined.

(** Claim C6 as stated fails for a tiny [eps]: in the band 75000..95000
    and with [eps] the positive number 2 ^ -40, the difference
    [minSalary - eps] and the sum [maxSalary + eps] are the bounds
    themselves, and the predicate answers [true] at both. *)
Lemma isSalaryInRange_epsilon_absorbed :
  let role := new 1%float "Senior Developer" "" "engineering" 3%float
                  75000%float 95000%float [] in
  let eps := 0x1p-40%float in
  le (minSalary role) (maxSalary role) = true /\
  gt eps 0%float = true /\
  (minSalary role - eps)%float = minSalary role /\
  (maxSalary role + eps)%float = maxSalary role /\
  isSalaryInRange role (minSalary role - eps)%float = true /\
  isSalaryInRange role (maxSalary role + eps)%float = true /\
  ~ (forall e : number,
       gt e 0%float = true ->
       isSalaryInRange role (minSalary role - e)%float = false /\
       isSalaryInRange role (maxSalary role + e)%float = false).
Proof.
  cbv zeta. do 6 (split; [reflexivity |]).
  intros H. destruct (H 0x1p-40%float eq_refl) as [C _].
  vm_compute in C. discriminate C.
Qed.

End Roles.

(** ** The responsibilities of a role *)

Section Responsibilities.

Import Role.
Local Open Scope list_scope.

Lemma includes_In (l : list string) (x : string) :
  includes l x = true <-> In x l.
Proof.
  unfold includes. rewrite existsb_exists. split.
  - intros [y [Hy E]]. apply String.eqb_eq in E. now subst.
  - intros H. exists x. split; [exact H | apply String.eqb_refl].
Qed.

Lemma indexOfFrom_absent (l : list string) (x : string) (i : Z) :
  ~ In x l -> indexOfFrom l x i = (-1)%Z.
Proof.
  revert i. induction l as [| y t IH]; intros i H; simpl; [reflexivity |].
  destruct (String.eqb_spec y x) as [E | _].
  - exfalso. apply H. now left.
  - apply IH. intros Hin. apply H. now right.
Qed.

Lemma indexOfFrom_first (l1 l2 : list string) (x : string) (i : Z) :
  ~ In x l1 -> indexOfFrom (l1 ++ x :: l2) x i = (i + Z.of_nat (List.length l1))%Z.
Proof.
  revert i. induction l1 as [| y t IH]; intros i H; simpl.
  - rewrite String.eqb_refl. lia.
  - destruct (String.eqb_spec y x) as [E | _].
    + exfalso. apply H. now left.
    + rewrite IH; [lia |]. intros Hin. apply H. now right.
Qed.

Lemma splice1_at_length (l1 l2 : list string) (x : string) :
  splice1 (l1 ++ x :: l2) (Z.of_nat (List.length l1)) = l1 ++ l2.
Proof.
  unfold splice1. rewrite Nat2Z.id.
  rewrite firstn_app, firstn_all, Nat.sub_diag, app_nil_r.
  replace (S (List.length l1)) with (List.length l1 + 1)%nat by lia.
  rewrite skipn_app, skipn_all2 by lia.
  replace (List.length l1 + 1 - List.length l1)%nat with 1%nat by lia.
  reflexivity.
Qed.

Lemma In_first (l : list string) (x : string) :
  In x l -> exists l1 l2, l = l1 ++ x :: l2 /\ ~ In x l1.
Proof.
  induction l as [| y t IH]; intros H; [destruct H |].
  destruct (string_dec y x) as [-> | Hne].
  - exists [], t. split; [reflexivity | intros []].
  - destruct H as [E | Hin]; [contradiction |].
    destruct (IH Hin) as [l1 [l2 [-> Hl1]]].
    exists (y :: l1), l2. split; [reflexivity |].
    intros [E | Hin']; [contradiction | exact (Hl1 Hin')].
Qed.

Lemma addResponsibility_present (r : Role) (text : string) :
  In text (responsibilities r) -> addResponsibility r text = r.
Proof.
  intros H. unfold addResponsibility.
  apply includes_In in H. rewrite H. reflexivity.
Qed.

Lemma addResponsibility_absent (r : Role) (text : string) :
  ~ In text (responsibilities r) ->
  responsibilities (addResponsibility r text) = responsibilities r ++ [text].
Proof.
  intros H. unfold addResponsibility.
  destruct (includes (responsibilities r) text) eqn:E.
  - exfalso. apply H. now apply includes_In.
  - reflexivity.
Qed.

Lemma removeResponsibility_absent (r : Role) (text : string) :
  ~ In text (responsibilities r) -> removeResponsibility r text = r.
Proof.
  intros H. unfold removeResponsibility, indexOf.
  rewrite (indexOfFrom_absent _ _ _ H). reflexivity.
Qed.

Lemma removeResponsibility_first (r : Role) (text : string) (l1 l2 : list string) :
  responsibilities r = l1 ++ text :: l2 -> ~ In text l1 ->
  responsibilities (removeResponsibility r text) = l1 ++ l2.
Proof.
  intros E H. unfold removeResponsibility, indexOf. rewrite E.
  rewrite (indexOfFrom_first _ _ _ _ H). simpl (0 + _)%Z.
  destruct (Z.gtb_spec (Z.of_nat (List.length l1)) (-1)) as [_ | Hle]; [| lia].
  simpl. apply splice1_at_length.
Qed.

Lemma addResponsibility_NoDup (r : Role) (text : string) :
  NoDup (responsibilities r) -> NoDup (responsibilities (addResponsibility r text)).
Proof.
  intros H. destruct (in_dec string_dec text (responsibilities r)) as [Hin | Hout].
  - now rewrite (addResponsibility_present _ _ Hin).
  - rewrite (addResponsibility_absent _ _ Hout).
    apply NoDup_rev in H. rewrite <- (rev_involutive (_ ++ _)).
    apply NoDup_rev. rewrite rev_app_distr. simpl.
    constructor; [| exact H]. now rewrite <- in_rev.
Qed.

Lemma removeResponsibility_NoDup (r : Role) (text : string) :
  NoDup (responsibilities r) ->
  NoDup (responsibilities (removeResponsibility r text)).
Proof.
  intros H. destruct (in_dec string_dec text (responsibilities r)) as [Hin | Hout].
  - destruct (In_first _ _ Hin) as [l1 [l2 [E Hl1]]].
    rewrite (removeResponsibility_first _ _ _ _ E Hl1).
    rewrite E in H. exact (NoDup_remove_1 _ _ _ H).
  - now rewrite (removeResponsibility_absent _ _ Hout).
Qed.

Lemma mutateAll_NoDup (ms : list Mutation) (r : Role) :
  NoDup (responsibilities r) -> NoDup (responsibilities (mutateAll r ms)).
Proof.
  revert r. induction ms as [| m ms IH]; intros r H; [exact H |].
  apply IH. destruct m; simpl.
  - now apply addResponsibility_NoDup.
  - now apply removeResponsibility_NoDup.
Qed.

(** Claim C8, as the code has it. The constructor keeps the list it is
    given, as it is. [addResponsibility] appends the text when no entry
    is equal to it, character for character, and changes nothing
    otherwise; [removeResponsibility] removes the first entry equal to
    the text and changes nothing when there is none. A list without
    duplicates therefore stays so under every sequence of the two
    mutators. *)
Theorem responsibilities_duplicate_free_preserved :
  (forall (id : number) (title description department : string)
          (level minSalary maxSalary : number) (l : list string),
     responsibilities
       (new id title description department level minSalary maxSalary l) = l) /\
  (forall (r : Role) (text : string),
     (In text (responsibilities r) -> addResponsibility r text = r) /\
     (~ In text (responsibilities r) ->
      responsibilities (addResponsibility r text) = responsibilities r ++ [text])) /\
  (forall (r : Role) (text : string),
     (~ In text (responsibilities r) -> removeResponsibility r text = r) /\
     (forall l1 l2 : list string,
        responsibilities r = l1 ++ text :: l2 -> ~ In text l1 ->
        responsibilities (removeResponsibility r text) = l1 ++ l2)) /\
  (forall (r : Role) (ms : list Mutation),
     NoDup (responsibilities r) -> NoDup (responsibilities (mutateAll r ms))).
Proof.
  split; [reflexivity |]. split; [| split].
  - intros r text. split.
    + apply addResponsibility_present.
    + apply addResponsibility_absent.
  - intros r text. split.
    + apply removeResponsibility_absent.
    + apply removeResponsibility_first.
  - intros r ms. apply mutateAll_NoDup.
Qed.

Lemma responsibilities_duplicate_free_preserved_witness :
  let r := new 3%float "UI Designer" "" "engineering" 2%float 25%float 45%float
               ["UI/UX design"; "Prototyping"]%string in
  NoDup (responsibilities r) /\
  NoDup (responsibilities
           (mutateAll r [Add "Prototyping"; Add "prototyping";
                         Remove "UI/UX design"; Remove "Reviews"]%string)).
Proof.
  assert (H : NoDup ["UI/UX design"; "Prototyping"]%string).
  { constructor.
    - simpl. intros [E | []]. discriminate E.
    - constructor; [intros [] | constructor]. }
  split; [exact H |].
  apply (responsibilities_duplicate_free_preserved). exact H.
Defined.

(** Claim C8 as stated fails at construction: a role built from a list
    with a repeated entry holds the repeated entry. *)
Lemma constructor_keeps_duplicates :
  let r := new 3%float "UI Designer" "" "engineering" 2%float 25%float 45%float
               ["Prototyping"; "Prototyping"]%string in
  responsibilities r = ["Prototyping"; "Prototyping"]%string /\
  ~ NoDup (responsibilities r).
Proof.
  split; [reflexivity |].
  simpl. intros H. inversion H as [| x l Hin _]. apply Hin. now left.
Qed.

End Responsibilities.

(** ** The salary gate of [POST /api/employees] *)

Section SalaryGate.

Import Routes.

Lemma postEmployees_keeps_store_unless_created
    (storage : Storage.MemStorage) (now : Date)
    (validation : Schema.SafeParse Schema.InsertEmployee.t) :
  (forall e, fst (postEmployees storage now validation) <> json 201 (Created e)) ->
  snd (postEmployees storage now validation) = storage.
Proof.
  unfold postEmployees. destruct validation as [data | errors]; [| reflexivity].
  destruct (Storage.getEmployeeByEmail _ _); [reflexivity |].
  destruct (Storage.getRole _ _) as [role |]; [| reflexivity].
  destruct (negb _); [reflexivity |].
  simpl. intros H. exfalso. eapply H. reflexivity.
Qed.

(** Claim C5, as the code has it. A creation request that passed schema
    validation, names an existing role and asks for a salary outside that
    role's band is rejected with status 400 and stores nothing. The
    message is [Salary must be between <minSalary> and <maxSalary> for
    this role], with the two bounds as the role row holds them, when no
    stored employee has the request's email; when one has, the email
    check, which comes first, answers instead. *)
Theorem postEmployees_salary_out_of_band (storage : Storage.MemStorage)
    (now : Date) (data : Schema.InsertEmployee.t) (role : Schema.Role.t) :
  Storage.getRole storage (Schema.InsertEmployee.roleId data) = Some role ->
  Role.isSalaryInRange (roleObjOf role)
    (parseFloat (Schema.InsertEmployee.salary data)) = false ->
  snd (postEmployees storage now (Schema.Success data)) = storage /\
  status (fst (postEmployees storage now (Schema.Success data))) = 400%Z /\
  (Storage.getEmployeeByEmail storage (Schema.InsertEmployee.email data) = None ->
   fst (postEmployees storage now (Schema.Success data))
   = json 400 (Message ("Salary must be between " ++ Schema.Role.minSalary role
                        ++ " and " ++ Schema.Role.maxSalary role
                        ++ " for this role"))) /\
  (Storage.getEmployeeByEmail storage (Schema.InsertEmployee.email data) <> None ->
   fst (postEmployees storage now (Schema.Success data))
   = json 400 (Message "Employee with this email already exists")).
Proof.
  intros Hrole Hband. unfold postEmployees.
  destruct (Storage.getEmployeeByEmail storage (Schema.InsertEmployee.email data))
    as [existing |].
  - repeat split; try reflexivity. intros H. discriminate H.
  - rewrite Hrole, Hband. simpl.
    repeat split; try reflexivity. intros H. now contradiction H.
Qed.

Lemma postEmployees_salary_out_of_band_witness :
  let storage := Storage.new 1750000000000%float in
  let data := Schema.InsertEmployee.mk "Kim" "Lee" "kim.lee@company.com" None
                "full-time" "engineering" 1%float "50000" 1750000000000%float None in
  postEmployees storage 1750000000000%float (Schema.Success data)
  = (json 400 (Message "Salary must be between 75000 and 95000 for this role"),
     storage).
Proof.
  cbv zeta.
  destruct (postEmployees_salary_out_of_band
              (Storage.new 1750000000000%float) 1750000000000%float
              (Schema.InsertEmployee.mk "Kim" "Lee" "kim.lee@company.com" None
                 "full-time" "engineering" 1%float "50000" 1750000000000%float None)
              (Schema.Role.mk 1%float "Senior Developer"
                 "Responsible for developing and maintaining software applications"
                 "engineering" 3%float "75000" "95000"
                 ["Code development and review"; "Technical documentation";
                  "Mentoring junior developers"])
              eq_refl eq_refl) as [Hstore [_ [Hmsg _]]].
  rewrite (surjective_pairing (postEmployees _ _ _)).
  rewrite Hstore, (Hmsg eq_refl). reflexivity.
Defined.

(** Claim C5 as stated fails when the email is already taken: the request
    below asks for a salary outside the band of role 1, and the answer is
    the email message, not the band message. *)
Lemma postEmployees_email_check_comes_first :
  let storage := Storage.new 1750000000000%float in
  let data := Schema.InsertEmployee.mk "Sarah" "Johnson" "sarah.johnson@company.com"
                None "full-time" "engineering" 1%float "50000"
                1750000000000%float None in
  (exists role,
     Storage.getRole storage (Schema.InsertEmployee.roleId data) = Some role /\
     Schema.Role.minSalary role = "75000" /\ Schema.Role.maxSalary role = "95000" /\
     Role.isSalaryInRange (roleObjOf role)
       (parseFloat (Schema.InsertEmployee.salary data)) = false) /\
  postEmployees storage 1750000000000%float (Schema.Success data)
  = (json 400 (Message "Employee with this email already exists"), storage) /\
  fst (postEmployees storage 1750000000000%float (Schema.Success data))
  <> json 400 (Message "Salary must be between 75000 and 95000 for this role").
Proof.
  cbv zeta. split; [| split].
  - eexists. split; [reflexivity |]. repeat split.
  - reflexivity.
  - discriminate.
Qed.

(** Inside the band, the same request is stored. *)
Lemma postEmployees_in_band_stores :
  let storage := Storage.new 1750000000000%float in
  let data := Schema.InsertEmployee.mk "Kim" "Lee" "kim.lee@company.com" None
                "full-time" "engineering" 1%float "80000" 1750000000000%float None in
  let (response, storage') :=
    postEmployees storage 1750000000000%float (Schema.Success data) in
  status response = 201%Z /\
  Storage.getEmployeeByEmail storage' "kim.lee@company.com" <> None /\
  Storage.currentEmployeeId storage' = 5%float.
Proof.
  vm_compute. repeat split. discriminate.
Qed.

End SalaryGate.

(** ** The guard of [POST /api/payslips/calculate] *)

Section CalculateGuard.

Import Employee PayslipCalculator Routes.
Local Open Scope float_scope.

Lemma getProperty_defined (v x : JsValue) (name name' : string) :
  getProperty v name = Ok x -> exists y, getProperty v name' = Ok y.
Proof.
  destruct v; simpl; intros H; try discriminate H; eauto.
  destruct (lookup properties name'); eauto.
Qed.

Lemma calculate_guard (numberToString : number -> string)
    (storage : Storage.MemStorage) (reqBody employeeId hoursWorked : JsValue) :
  getProperty reqBody "employeeId" = Ok employeeId ->
  getProperty reqBody "hoursWorked" = Ok hoursWorked ->
  toBoolean employeeId = false \/ toBoolean hoursWorked = false ->
  postPayslipsCalculate numberToString storage reqBody
  = (json 400 (Message "Employee ID and hours worked are required"), []).
Proof.
  intros He Hh Hfalsy.
  destruct (getProperty_defined _ _ _ "overtimeHours" He) as [o Ho].
  destruct (getProperty_defined _ _ _ "deductions" He) as [d Hd].
  unfold postPayslipsCalculate, calculateBody.
  rewrite He, Hh, Ho, Hd. unfold step, andThen.
  assert (G : negb (toBoolean employeeId) || negb (toBoolean hoursWorked) = true).
  { destruct Hfalsy as [-> | ->]; [reflexivity | apply orb_true_r]. }
  rewrite G. reflexivity.
Qed.

(** A body whose [hoursWorked] is the string ["0"], sent for the first
    sample employee, reaches the calculator with [hoursWorked = 0]. *)
Lemma calculate_string_zero (numberToString : number -> string) :
  postPayslipsCalculate numberToString (Storage.new 1750000000000)
    (JObj [("employeeId", JNum 1); ("hoursWorked", JStr "0");
           ("overtimeHours", JStr "0"); ("deductions", JStr "0")])
  = (json 200 (Payslip (mkPayslipResult (85000 / 12) 0 (85000 / 12) 0
                                        (85000 / 12) 0 0)),
     [CreateEmployee; CreateCalculator; CalculatePayslip 0 0 0]).
Proof.
  reflexivity.
Qed.

(** Claim C10, as the code has it. When the [employeeId] or the
    [hoursWorked] read from the request body is falsy ([0], absent,
    [null], [false], the empty string, [NaN]), the handler answers 400
    [Employee ID and hours worked are required] and makes no call into
    the domain classes, so no payslip is computed for the number [0]. The
    calculator itself accepts [hoursWorked = 0] (the full-time example of
    the specification), and the endpoint reaches it with that value when
    [hoursWorked] is a truthy value that parses to [0], such as the
    string ["0"]. *)
Theorem calculate_requires_truthy_fields :
  (forall (numberToString : number -> string) (storage : Storage.MemStorage)
          (reqBody employeeId hoursWorked : JsValue),
     getProperty reqBody "employeeId" = Ok employeeId ->
     getProperty reqBody "hoursWorked" = Ok hoursWorked ->
     toBoolean employeeId = false \/ toBoolean hoursWorked = false ->
     postPayslipsCalculate numberToString storage reqBody
     = (json 400 (Message "Employee ID and hours worked are required"), [])) /\
  (toBoolean (JNum 0) = false /\ toBoolean JUndefined = false /\
   toBoolean JNull = false /\ toBoolean (JStr "") = false /\
   toBoolean (JBool false) = false /\ toBoolean (JNum nan) = false) /\
  (forall (base : BaseFields) (c : AnyCalculator),
     createCalculator (FullTime (mkFullTime base 96000)) = Ok c ->
     calculatePayslip c 0 (Some 0) (Some 0)
     = mkPayslipResult 8000 0 8000 0 8000 0 0) /\
  (toBoolean (JStr "0") = true /\
   exists (storage : Storage.MemStorage) (reqBody : JsValue),
     getProperty reqBody "hoursWorked" = Ok (JStr "0") /\
     forall numberToString : number -> string,
     exists result : PayslipResult,
       postPayslipsCalculate numberToString storage reqBody
       = (json 200 (Payslip result),
          [CreateEmployee; CreateCalculator; CalculatePayslip 0 0 0]) /\
       hoursWorked result = 0).
Proof.
  split; [exact calculate_guard |].
  split; [repeat split |].
  split.
  - intros base c H. injection H as <-. reflexivity.
  - split; [reflexivity |].
    exists (Storage.new 1750000000000).
    exists (JObj [("employeeId", JNum 1); ("hoursWorked", JStr "0");
                  ("overtimeHours", JStr "0"); ("deductions", JStr "0")]).
    split; [reflexivity |].
    intros numberToString. eexists. split.
    + apply calculate_string_zero.
    + reflexivity.
Qed.

Lemma calculate_requires_truthy_fields_witness :
  let reqBody := JObj [("employeeId", JNum 1); ("hoursWorked", JNum 0)] in
  getProperty reqBody "employeeId" = Ok (JNum 1) /\
  getProperty reqBody "hoursWorked" = Ok (JNum 0) /\
  toBoolean (JNum 0) = false /\
  forall numberToString : number -> string,
    postPayslipsCalculate numberToString (Storage.new 1750000000000) reqBody
    = (json 400 (Message "Employee ID and hours worked are required"), []).
Proof.
  cbv zeta. split; [reflexivity |]. split; [reflexivity |]. split; [reflexivity |].
  intros numberToString.
  apply (proj1 calculate_requires_truthy_fields numberToString
           (Storage.new 1750000000000)
           (JObj [("employeeId", JNum 1); ("hoursWorked", JNum 0)])
           (JNum 1) (JNum 0) eq_refl eq_refl).
  right. reflexivity.
Defined.

(** Claim C10 as stated fails in its last part: a payslip for zero hours
    is reachable through the endpoint. The string ["0"] is truthy, passes
    the guard, and [parseFloat] turns it into [0]. *)
Lemma calculate_zero_hours_reachable :
  toBoolean (JStr "0") = true /\
  parseFloat "0" = 0 /\
  forall numberToString : number -> string,
    postPayslipsCalculate numberToString (Storage.new 1750000000000)
      (JObj [("employeeId", JNum 1); ("hoursWorked", JStr "0");
             ("overtimeHours", JStr "0"); ("deductions", JStr "0")])
    = (json 200 (Payslip (mkPayslipResult (85000 / 12) 0 (85000 / 12) 0
                                          (85000 / 12) 0 0)),
       [CreateEmployee; CreateCalculator; CalculatePayslip 0 0 0]).
Proof.
  split; [reflexivity |]. split; [reflexivity |].
  exact calculate_string_zero.
Qed.

End CalculateGuard.

(** ** More on the order and equality of binary64 values *)

Section FloatEquality.

Local Open Scope float_scope.

Lemma SFcompare_Eq_left (x y z : spec_float) :
  SFcompare x y = Some Eq -> SFcompare x z = SFcompare y z.
Proof.
  destruct x as [s | s | | s m e], y as [s' | s' | | s' m' e']; simpl;
    try discriminate; try (destruct s; discriminate);
    try (destruct s'; discriminate).
  - reflexivity.
  - destruct s, s'; try discriminate; reflexivity.
  - destruct s, s'; try discriminate;
      destruct (Z.compare_spec e e') as [-> | _ | _]; try discriminate;
      intros H; injection H as H;
      try (apply (f_equal CompOpp) in H; rewrite CompOpp_involutive in H; simpl in H);
      apply Pos.compare_eq in H; subst; reflexivity.
Qed.

Lemma SFleb_trans (x y z : spec_float) :
  SFleb x y = true -> SFleb y z = true -> SFleb x z = true.
Proof.
  unfold SFleb.
  destruct x as [s | s | | s m e], y as [s' | s' | | s' m' e'],
           z as [s'' | s'' | | s'' m'' e'']; simpl;
    try discriminate; try reflexivity;
    try (destruct s; try discriminate; try reflexivity;
         destruct s'; try discriminate; try reflexivity;
         destruct s''; try discriminate; reflexivity);
    try (destruct s'; try discriminate; try reflexivity;
         destruct s''; try discriminate; reflexivity);
    try (destruct s; try discriminate; try reflexivity;
         destruct s''; try discriminate; reflexivity);
    try (destruct s; try discriminate; try reflexivity;
         destruct s'; try discriminate; reflexivity).
  destruct s, s', s''; try discriminate; try reflexivity;
    destruct (Z.compare_spec e e'); destruct (Z.compare_spec e' e'');
    destruct (Z.compare_spec e e''); subst; try lia;
    try discriminate; try reflexivity; simpl;
    fold (Pos.compare m m'); fold (Pos.compare m' m''); fold (Pos.compare m m'');
    destruct (Pos.compare_spec m m'); destruct (Pos.compare_spec m' m'');
    destruct (Pos.compare_spec m m''); subst; try lia;
    try discriminate; reflexivity.
Qed.

Lemma leb_trans (a b c : float) :
  (a <=? b) = true -> (b <=? c) = true -> (a <=? c) = true.
Proof. rewrite !leb_spec. apply SFleb_trans. Qed.

Lemma eqb_refl_or_nan (a : float) : (a =? a) = negb (is_nan a).
Proof.
  unfold is_nan. destruct (a =? a); reflexivity.
Qed.

Lemma eqb_sym (a b : float) : (a =? b) = (b =? a).
Proof.
  rewrite !FloatAxioms.eqb_spec. unfold SFeqb.
  rewrite (SFcompare_antisym (Prim2SF a) (Prim2SF b)).
  destruct (SFcompare (Prim2SF a) (Prim2SF b)) as [[ | | ] | ]; reflexivity.
Qed.

Lemma eqb_true_left (a b c : float) : (a =? b) = true -> (a =? c) = (b =? c).
Proof.
  rewrite !FloatAxioms.eqb_spec. unfold SFeqb. intros H.
  rewrite (SFcompare_Eq_left (Prim2SF a) (Prim2SF b) (Prim2SF c)); [reflexivity |].
  destruct (SFcompare (Prim2SF a) (Prim2SF b)) as [[ | | ] | ];
    try discriminate H; reflexivity.
Qed.

Lemma eqb_true_not_nan (a b : float) :
  (a =? b) = true -> is_nan a = false /\ is_nan b = false.
Proof.
  intros H. unfold is_nan.
  rewrite (eqb_true_left a b a H), (eqb_sym b a), H.
  rewrite eqb_sym in H. rewrite (eqb_true_left b a b H), (eqb_sym a b), H.
  split; reflexivity.
Qed.

End FloatEquality.

(** ** The maps of the store *)

Section StoreMaps.

Import Storage StorageCrud StoreInvariant.
Local Open Scope list_scope.

Lemma sameValueZero_refl (a : number) : sameValueZero a a = true.
Proof.
  unfold sameValueZero, is_nan. destruct (PrimFloat.eqb a a); reflexivity.
Qed.

Lemma sameValueZero_sym (a b : number) : sameValueZero a b = sameValueZero b a.
Proof.
  unfold sameValueZero. rewrite (eqb_sym a b), (andb_comm (is_nan a)). reflexivity.
Qed.

Lemma eqb_nan_left (a b : number) : is_nan a = true -> PrimFloat.eqb a b = false.
Proof.
  intros H. destruct (PrimFloat.eqb a b) eqn:E; [| reflexivity].
  destruct (eqb_true_not_nan a b E) as [Ha _]. congruence.
Qed.

Lemma sameValueZero_true_left (a b c : number) :
  sameValueZero a b = true -> sameValueZero a c = sameValueZero b c.
Proof.
  unfold sameValueZero. intros H. apply orb_prop in H. destruct H as [H | H].
  - rewrite (eqb_true_left a b c H).
    destruct (eqb_true_not_nan a b H) as [-> ->]. reflexivity.
  - apply andb_prop in H. destruct H as [Ha Hb].
    rewrite (eqb_nan_left a c Ha), (eqb_nan_left b c Hb), Ha, Hb. reflexivity.
Qed.

Lemma sameValueZero_true_right (a b c : number) :
  sameValueZero a b = true -> sameValueZero c a = sameValueZero c b.
Proof.
  intros H. rewrite (sameValueZero_sym c a), (sameValueZero_sym c b).
  now apply sameValueZero_true_left.
Qed.

Lemma mapGet_same_key {V : Type} (m : list (number * V)) (k k' : number) :
  sameValueZero k k' = true -> mapGet m (JNum k) = mapGet m (JNum k').
Proof.
  intros H. induction m as [| [k0 v] t IH]; simpl; [reflexivity |].
  rewrite (sameValueZero_true_right k k' k0 H), IH. reflexivity.
Qed.

Lemma mapGet_mapSet_same {V : Type} (m : list (number * V)) (k : number) (v : V) :
  mapGet (mapSet m k v) (JNum k) = Some v.
Proof.
  induction m as [| [k0 w] t IH]; simpl.
  - now rewrite sameValueZero_refl.
  - destruct (sameValueZero k0 k) eqn:E; simpl; rewrite E; [reflexivity | exact IH].
Qed.

Lemma mapGet_mapSet_other {V : Type} (m : list (number * V)) (k k' : number) (v : V) :
  sameValueZero k k' = false ->
  mapGet (mapSet m k v) (JNum k') = mapGet m (JNum k').
Proof.
  intros H. induction m as [| [k0 w] t IH]; simpl.
  - now rewrite H.
  - destruct (sameValueZero k0 k) eqn:E; simpl.
    + rewrite (sameValueZero_true_left k0 k k' E), H. reflexivity.
    + now rewrite IH.
Qed.

Lemma mapGet_not_a_number {V : Type} (m : list (number * V)) (key : JsValue) :
  (forall n, key <> JNum n) -> mapGet m key = None.
Proof.
  intros H. destruct m as [| [k v] t]; [reflexivity |].
  destruct key; try reflexivity. now contradiction (H n).
Qed.

Lemma mapGet_In {V : Type} (m : list (number * V)) (key : JsValue) (v : V) :
  mapGet m key = Some v -> In v (mapValues m).
Proof.
  induction m as [| [k w] t IH]; simpl; [discriminate |].
  destruct key; try discriminate.
  destruct (sameValueZero k n).
  - intros H. injection H as ->. now left.
  - intros H. right. now apply IH.
Qed.

Lemma existsb_key_mapSet {V : Type} (m : list (number * V)) (k k0 : number) (v : V) :
  sameValueZero k k0 = false ->
  existsb (fun entry => sameValueZero (fst entry) k0) (mapSet m k v)
  = existsb (fun entry => sameValueZero (fst entry) k0) m.
Proof.
  intros H. induction m as [| [k1 w] t IH]; simpl.
  - now rewrite H.
  - destruct (sameValueZero k1 k) eqn:E; simpl; [reflexivity | now rewrite IH].
Qed.

Lemma distinctKeys_mapSet {V : Type} (m : list (number * V)) (k : number) (v : V) :
  distinctKeys m = true -> distinctKeys (mapSet m k v) = true.
Proof.
  induction m as [| [k0 w] t IH]; simpl; [reflexivity |].
  intros H. apply andb_prop in H. destruct H as [Hfresh Ht].
  destruct (sameValueZero k0 k) eqn:E; simpl.
  - now rewrite Hfresh, Ht.
  - rewrite existsb_key_mapSet.
    + now rewrite Hfresh, (IH Ht).
    + now rewrite sameValueZero_sym.
Qed.

Lemma existsb_key_mapDelete {V : Type} (m : list (number * V)) (k k0 : number) :
  existsb (fun entry => sameValueZero (fst entry) k0) m = false ->
  existsb (fun entry => sameValueZero (fst entry) k0) (fst (mapDelete m k)) = false.
Proof.
  induction m as [| [k1 w] t IH]; simpl; [reflexivity |].
  intros H. apply orb_false_elim in H. destruct H as [H1 Ht].
  destruct (sameValueZero k1 k); simpl; [exact Ht |].
  specialize (IH Ht). destruct (mapDelete t k) as [t' found]. simpl in *.
  now rewrite H1, IH.
Qed.

Lemma distinctKeys_mapDelete {V : Type} (m : list (number * V)) (k : number) :
  distinctKeys m = true -> distinctKeys (fst (mapDelete m k)) = true.
Proof.
  induction m as [| [k0 w] t IH]; simpl; [reflexivity |].
  intros H. apply andb_prop in H. destruct H as [Hfresh Ht].
  destruct (sameValueZero k0 k); simpl; [exact Ht |].
  specialize (IH Ht). apply negb_true_iff in Hfresh.
  pose proof (existsb_key_mapDelete t k k0 Hfresh) as Hd.
  destruct (mapDelete t k) as [t' found]. simpl in *.
  now rewrite Hd, IH.
Qed.

Lemma mapGet_None_existsb {V : Type} (m : list (number * V)) (k : number) :
  existsb (fun entry => sameValueZero (fst entry) k) m = false ->
  mapGet m (JNum k) = None.
Proof.
  induction m as [| [k0 w] t IH]; simpl; [reflexivity |].
  intros H. apply orb_false_elim in H. destruct H as [-> Ht]. now apply IH.
Qed.

Lemma existsb_key_same {V : Type} (m : list (number * V)) (k k' : number) :
  sameValueZero k k' = true ->
  existsb (fun entry => sameValueZero (fst entry) k) m
  = existsb (fun entry => sameValueZero (fst entry) k') m.
Proof.
  intros H. induction m as [| [k0 w] t IH]; simpl; [reflexivity |].
  now rewrite IH, (sameValueZero_true_right k k' k0 H).
Qed.

Lemma mapGet_mapDelete_same {V : Type} (m : list (number * V)) (k : number) :
  distinctKeys m = true -> mapGet (fst (mapDelete m k)) (JNum k) = None.
Proof.
  induction m as [| [k0 w] t IH]; simpl; [reflexivity |].
  intros H. apply andb_prop in H. destruct H as [Hfresh Ht].
  destruct (sameValueZero k0 k) eqn:E; simpl.
  - apply mapGet_None_existsb. apply negb_true_iff in Hfresh.
    now rewrite <- (existsb_key_same t k0 k E).
  - specialize (IH Ht). destruct (mapDelete t k) as [t' found]. simpl in *.
    now rewrite E.
Qed.

Lemma mapGet_mapDelete_other {V : Type} (m : list (number * V)) (k k' : number) :
  sameValueZero k k' = false ->
  mapGet (fst (mapDelete m k)) (JNum k') = mapGet m (JNum k').
Proof.
  intros H. induction m as [| [k0 w] t IH]; simpl; [reflexivity |].
  destruct (sameValueZero k0 k) eqn:E; simpl.
  - now rewrite (sameValueZero_true_left k0 k k' E), H.
  - destruct (mapDelete t k) as [t' found]. simpl in *. now rewrite IH.
Qed.

Lemma mapDelete_found {V : Type} (m : list (number * V)) (k : number) :
  snd (mapDelete m k) = match mapGet m (JNum k) with Some _ => true | None => false end.
Proof.
  induction m as [| [k0 w] t IH]; simpl; [reflexivity |].
  destruct (sameValueZero k0 k); simpl; [reflexivity |].
  destruct (mapDelete t k) as [t' found]. simpl in *. exact IH.
Qed.

End StoreMaps.

(** ** More on roles *)

Section RolesMore.

Import Role.
Local Open Scope list_scope.

(** X1. A role whose band is not ordered ([minSalary <= maxSalary] is
    false: the bounds are inverted, or one is [NaN]) accepts no salary at
    all. *)
Theorem isSalaryInRange_unordered_band (role : Role) :
  le (minSalary role) (maxSalary role) = false ->
  forall candidate : number, isSalaryInRange role candidate = false.
Proof.
  intros H c. unfold isSalaryInRange, ge, le in *.
  destruct (PrimFloat.leb (minSalary role) c) eqn:E1; [| reflexivity].
  destruct (PrimFloat.leb c (maxSalary role)) eqn:E2; [| reflexivity].
  rewrite (leb_trans _ _ _ E1 E2) in H. discriminate H.
Qed.

Lemma isSalaryInRange_unordered_band_witness :
  let role := new 9%float "Analyst" "" "finance" 1%float 95000%float 75000%float [] in
  le (minSalary role) (maxSalary role) = false /\
  isSalaryInRange role 80000%float = false.
Proof.
  split; [reflexivity |].
  apply (isSalaryInRange_unordered_band
           (new 9%float "Analyst" "" "finance" 1%float 95000%float 75000%float [])).
  reflexivity.
Defined.

(** X2. After [addResponsibility(text)] the text is an entry, the entries
    are the former ones and the text, the former list is a prefix of the
    new one, a second call with the same text changes nothing, and the
    salary band is untouched. *)
Theorem addResponsibility_membership (r : Role) (text : string) :
  In text (responsibilities (addResponsibility r text)) /\
  (forall x : string,
     In x (responsibilities (addResponsibility r text)) <->
     x = text \/ In x (responsibilities r)) /\
  (exists suffix : list string,
     responsibilities (addResponsibility r text) = responsibilities r ++ suffix) /\
  addResponsibility (addResponsibility r text) text = addResponsibility r text /\
  getSalaryRange (addResponsibility r text) = getSalaryRange r.
Proof.
  destruct (in_dec string_dec text (responsibilities r)) as [Hin | Hout].
  - rewrite (addResponsibility_present _ _ Hin).
    split; [exact Hin |]. split; [| split; [| split]].
    + intros x. split; [now right | intros [-> | H]; assumption].
    + exists []. now rewrite app_nil_r.
    + now apply addResponsibility_present.
    + reflexivity.
  - assert (Hmem : In text (responsibilities (addResponsibility r text))).
    { rewrite (addResponsibility_absent _ _ Hout). apply in_or_app. right. now left. }
    split; [exact Hmem |]. split; [| split; [| split]].
    + intros x. rewrite (addResponsibility_absent _ _ Hout), in_app_iff. simpl.
      split; [intros [H | [H | []]]; auto | intros [H | H]; auto].
    + exists [text]. now apply addResponsibility_absent.
    + now apply addResponsibility_present.
    + unfold addResponsibility. destruct (negb _); reflexivity.
Qed.

(** X3. Removing a text just added to a role that did not have it gives
    the role back, field for field. *)
Theorem removeResponsibility_after_add (r : Role) (text : string) :
  ~ In text (responsibilities r) ->
  removeResponsibility (addResponsibility r text) text = r.
Proof.
  intros Hout.
  assert (E : responsibilities (addResponsibility r text)
              = responsibilities r ++ text :: []).
  { now apply addResponsibility_absent. }
  pose proof (removeResponsibility_first _ _ _ _ E Hout) as Hresp.
  rewrite app_nil_r in Hresp.
  assert (Hrest : forall r' : Role,
            removeResponsibility r' text
            = setResponsibilities r' (responsibilities (removeResponsibility r' text))).
  { intros r'. unfold removeResponsibility.
    destruct (_ >? _)%Z; [reflexivity | now destruct r']. }
  rewrite Hrest, Hresp. unfold addResponsibility.
  destruct (negb _); now destruct r.
Qed.

Lemma removeResponsibility_after_add_witness :
  let r := new 3%float "UI Designer" "" "engineering" 2%float 25%float 45%float
               ["UI/UX design"; "Prototyping"]%string in
  ~ In "Reviews"%string (responsibilities r) /\
  removeResponsibility (addResponsibility r "Reviews") "Reviews" = r.
Proof.
  assert (H : ~ In "Reviews"%string ["UI/UX design"; "Prototyping"]%string).
  { simpl. intros [E | [E | []]]; discriminate E. }
  split; [exact H |].
  apply (removeResponsibility_after_add
           (new 3%float "UI Designer" "" "engineering" 2%float 25%float 45%float
                ["UI/UX design"; "Prototyping"]%string)).
  exact H.
Defined.

(** X4. [removeResponsibility(text)] removes one occurrence of the text
    and nothing else: the number of entries equal to the text goes down by
    one (staying [0] when there was none), and every other text keeps its
    number of entries. On a list without duplicates the text is gone; on
    a list that holds it twice it is still there. *)
Theorem removeResponsibility_counts (r : Role) (text : string) :
  (forall x : string,
     count_occ string_dec (responsibilities (removeResponsibility r text)) x
     = if string_dec x text
       then Nat.pred (count_occ string_dec (responsibilities r) text)
       else count_occ string_dec (responsibilities r) x) /\
  (NoDup (responsibilities r) ->
   ~ In text (responsibilities (removeResponsibility r text))) /\
  ((count_occ string_dec (responsibilities r) text >= 2)%nat ->
   In text (responsibilities (removeResponsibility r text))).
Proof.
  assert (Hcount : forall x : string,
     count_occ string_dec (responsibilities (removeResponsibility r text)) x
     = if string_dec x text
       then Nat.pred (count_occ string_dec (responsibilities r) text)
       else count_occ string_dec (responsibilities r) x).
  { intros x.
    destruct (in_dec string_dec text (responsibilities r)) as [Hin | Hout].
    - destruct (In_first _ _ Hin) as [l1 [l2 [E Hl1]]].
      rewrite (removeResponsibility_first _ _ _ _ E Hl1), E.
      rewrite !count_occ_app. simpl.
      destruct (string_dec x text) as [-> | Hne].
      + destruct (string_dec text text) as [_ | C]; [| contradiction].
        rewrite Nat.add_succ_r. reflexivity.
      + destruct (string_dec text x) as [C | _]; [now subst |]. reflexivity.
    - rewrite (removeResponsibility_absent _ _ Hout).
      destruct (string_dec x text) as [-> | _]; [| reflexivity].
      apply (count_occ_not_In string_dec) in Hout. now rewrite Hout. }
  split; [exact Hcount |]. split.
  - intros Hnd. apply (count_occ_not_In string_dec).
    rewrite Hcount. destruct (string_dec text text) as [_ | C]; [| contradiction].
    rewrite (NoDup_count_occ string_dec) in Hnd. specialize (Hnd text). lia.
  - intros Htwice. apply (count_occ_In string_dec).
    rewrite Hcount. destruct (string_dec text text) as [_ | C]; [| contradiction].
    lia.
Qed.

Lemma removeResponsibility_counts_witness :
  let r := new 3%float "UI Designer" "" "engineering" 2%float 25%float 45%float
               ["Prototyping"; "UI/UX design"; "Prototyping"]%string in
  (count_occ string_dec (responsibilities r) "Prototyping"%string >= 2)%nat /\
  In "Prototyping"%string (responsibilities (removeResponsibility r "Prototyping")).
Proof.
  assert (H : (count_occ string_dec
                 ["Prototyping"; "UI/UX design"; "Prototyping"]%string
                 "Prototyping"%string >= 2)%nat).
  { vm_compute. lia. }
  split; [exact H |].
  apply (removeResponsibility_counts
           (new 3%float "UI Designer" "" "engineering" 2%float 25%float 45%float
                ["Prototyping"; "UI/UX design"; "Prototyping"]%string)
           "Prototyping"%string).
  exact H.
Defined.

End RolesMore.

(** ** More on the employee factory *)

Section FactoryMore.

Import Employee PayslipCalculator.
Local Open Scope float_scope.

(** X5. An employee that [createEmployee] returns answers with the
    arguments it was built from: its type is the type tag given, its id,
    email and role are the ones given, its full name is the first and the
    last name with a space between, it is eligible for benefits exactly
    when the tag is ["full-time"], and the calculator factory accepts it. *)
Theorem createEmployee_roundtrip (id : number) (firstName lastName email type : string)
    (role : Role.Role) (startDate : Date) (salary : number) (e : BaseEmployee) :
  createEmployee id firstName lastName email type role startDate salary = Ok e ->
  getEmployeeType e = type /\
  getId e = id /\
  getEmail e = email /\
  getRole e = role /\
  getFullName e = (firstName ++ " " ++ lastName)%string /\
  isEligibleForBenefits e = String.eqb type "full-time" /\
  calculateMonthlySalary e
  = (if String.eqb type "full-time" then salary / 12 else salary * 80) /\
  exists c : AnyCalculator, createCalculator e = Ok c.
Proof.
  unfold createEmployee.
  destruct (String.eqb_spec type "full-time") as [-> | Hft].
  - intros H. injection H as <-. repeat split. eexists. reflexivity.
  - destruct (String.eqb_spec type "part-time") as [-> | Hpt]; [| discriminate].
    intros H. injection H as <-. repeat split. eexists. reflexivity.
Qed.

Lemma createEmployee_roundtrip_witness :
  exists e : BaseEmployee,
    createEmployee 3 "Alex" "Rivera" "alex.rivera@company.com" "part-time"
      (Role.new 3 "UI Designer" "" "engineering" 2 25 45 []) 1686355200000 35 = Ok e /\
    getEmployeeType e = "part-time"%string /\
    getFullName e = "Alex Rivera"%string /\
    calculateMonthlySalary e = 2800.
Proof.
  eexists. split; [reflexivity |].
  destruct (createEmployee_roundtrip 3 "Alex" "Rivera" "alex.rivera@company.com"
              "part-time" (Role.new 3 "UI Designer" "" "engineering" 2 25 45 [])
              1686355200000 35 _ eq_refl) as [Ht [_ [_ [_ [Hn [_ [Hm _]]]]]]].
  split; [exact Ht |]. split; [exact Hn | exact Hm].
Defined.

End FactoryMore.

(** ** The store's role and employee methods *)

Section StoreMethods.

Import Storage StorageCrud StoreInvariant.
Local Open Scope list_scope.

Lemma Forall_mapSet {V : Type} (P : number * V -> Prop) (m : list (number * V))
    (k : number) (v : V) :
  Forall P m -> P (k, v) -> (forall k0 w, P (k0, w) -> sameValueZero k0 k = true ->
                             mapGet m (JNum k) = Some w -> P (k0, v)) ->
  Forall P (mapSet m k v).
Proof.
  intros Hm Hnew Hrep. induction m as [| [k0 w] t IH]; simpl.
  - constructor; [exact Hnew | constructor].
  - inversion Hm as [| x l Hx Ht]; subst.
    destruct (sameValueZero k0 k) eqn:E.
    + constructor; [| exact Ht]. apply (Hrep k0 w Hx E). simpl. now rewrite E.
    + constructor; [exact Hx |]. apply IH; [exact Ht |].
      intros k1 w1 H1 E1 G. apply (Hrep k1 w1 H1 E1). simpl. now rewrite E.
Qed.

Lemma Forall_mapDelete {V : Type} (P : number * V -> Prop) (m : list (number * V))
    (k : number) :
  Forall P m -> Forall P (fst (mapDelete m k)).
Proof.
  intros Hm. induction m as [| [k0 w] t IH]; simpl; [constructor |].
  inversion Hm as [| x l Hx Ht]; subst.
  destruct (sameValueZero k0 k); simpl; [exact Ht |].
  specialize (IH Ht). destruct (mapDelete t k) as [t' found]. simpl in *.
  now constructor.
Qed.

Lemma mapGet_Forall {V : Type} (P : number * V -> Prop) (m : list (number * V))
    (k : number) (v : V) :
  Forall P m -> mapGet m (JNum k) = Some v ->
  exists k0, sameValueZero k0 k = true /\ P (k0, v).
Proof.
  intros Hm. induction m as [| [k0 w] t IH]; simpl; [discriminate |].
  inversion Hm as [| x l Hx Ht]; subst.
  destruct (sameValueZero k0 k) eqn:E.
  - intros H. injection H as ->. now exists k0.
  - now apply IH.
Qed.

Lemma wellKeyed_new (now : Date) : wellKeyed (Storage.new now) = true.
Proof. reflexivity. Qed.

Lemma idsAreKeys_new (now : Date) : idsAreKeys (Storage.new now).
Proof.
  split; cbv; repeat constructor.
Qed.

(** X6. Every store that the constructor and the role and employee
    methods produce has no two roles and no two employees under the same
    key, and files every row under its own [id]. *)
Theorem reachable_store_is_keyed (this : MemStorage) :
  reachable this -> wellKeyed this = true /\ idsAreKeys this.
Proof.
  intros H. induction H as
    [ now | this ins _ [IHk [IHr IHe]] | this id p _ [IHk [IHr IHe]]
    | this id _ [IHk [IHr IHe]] | this now ins _ [IHk [IHr IHe]]
    | this id p _ [IHk [IHr IHe]] | this id _ [IHk [IHr IHe]] ];
    [ split; [apply wellKeyed_new | apply idsAreKeys_new] | .. ];
    unfold wellKeyed in IHk; apply andb_prop in IHk; destruct IHk as [Kr Ke];
    unfold wellKeyed, idsAreKeys.
  - simpl. rewrite (distinctKeys_mapSet _ _ _ Kr), Ke. repeat split; [| exact IHe].
    apply Forall_mapSet; [exact IHr | apply sameValueZero_refl |].
    intros k0 w Hw E G. simpl. now rewrite sameValueZero_sym.
  - unfold updateRole. destruct (mapGet (roles this) (JNum id)) as [existing |] eqn:G;
      simpl; [| rewrite Kr, Ke; repeat split; assumption].
    rewrite (distinctKeys_mapSet _ _ _ Kr), Ke. repeat split; [| exact IHe].
    destruct (mapGet_Forall _ _ _ _ IHr G) as [k1 [E1 H1]]. simpl in H1.
    apply Forall_mapSet; [exact IHr | |].
    + simpl. now rewrite <- (sameValueZero_true_right k1 id _ E1).
    + intros k0 w Hw E G'. rewrite G in G'. injection G' as <-. exact Hw.
  - unfold deleteRole.
    pose proof (distinctKeys_mapDelete _ id Kr) as Kd.
    pose proof (Forall_mapDelete _ _ id IHr) as Fd.
    destruct (mapDelete (roles this) id) as [roles' found]. simpl in *.
    rewrite Kd, Ke. repeat split; assumption.
  - simpl. rewrite Kr, (distinctKeys_mapSet _ _ _ Ke). repeat split; [exact IHr |].
    apply Forall_mapSet; [exact IHe | apply sameValueZero_refl |].
    intros k0 w Hw E G. simpl. now rewrite sameValueZero_sym.
  - unfold updateEmployee.
    destruct (mapGet (employees this) (JNum id)) as [existing |] eqn:G;
      simpl; [| rewrite Kr, Ke; repeat split; assumption].
    rewrite Kr, (distinctKeys_mapSet _ _ _ Ke). repeat split; [exact IHr |].
    destruct (mapGet_Forall _ _ _ _ IHe G) as [k1 [E1 H1]]. simpl in H1.
    apply Forall_mapSet; [exact IHe | |].
    + simpl. now rewrite <- (sameValueZero_true_right k1 id _ E1).
    + intros k0 w Hw E G'. rewrite G in G'. injection G' as <-. exact Hw.
  - unfold deleteEmployee.
    pose proof (distinctKeys_mapDelete _ id Ke) as Kd.
    pose proof (Forall_mapDelete _ _ id IHe) as Fd.
    destruct (mapDelete (employees this) id) as [employees' found]. simpl in *.
    rewrite Kr, Kd. repeat split; assumption.
Qed.

Lemma reachable_store_is_keyed_witness :
  let this := snd (deleteRole
                     (snd (createEmployee (Storage.new 1750000000000%float)
                             1750000000000%float
                             (Schema.InsertEmployee.mk "Kim" "Lee" "kim.lee@company.com"
                                None "full-time" "engineering" 1%float "80000"
                                1750000000000%float None)))
                     2%float) in
  reachable this /\ wellKeyed this = true.
Proof.
  assert (R : reachable
                (snd (deleteRole
                     (snd (createEmployee (Storage.new 1750000000000%float)
                             1750000000000%float
                             (Schema.InsertEmployee.mk "Kim" "Lee" "kim.lee@company.com"
                                None "full-time" "engineering" 1%float "80000"
                                1750000000000%float None)))
                     2%float))).
  { apply reach_deleteRole, reach_createEmployee, reach_new. }
  split; [exact R |].
  exact (proj1 (reachable_store_is_keyed _ R)).
Defined.

(** X7. [createRole] files the new role under the current role id, and
    [getRole] with that id returns it; the role carries the inserted
    fields; every other id answers as before, and the employees are
    untouched. *)
Theorem createRole_then_getRole (this : MemStorage) (insertRole : Schema.InsertRole.t) :
  let role := fst (createRole this insertRole) in
  let this' := snd (createRole this insertRole) in
  Schema.Role.id role = currentRoleId this /\
  getRole this' (Schema.Role.id role) = Some role /\
  In role (getRoles this') /\
  Schema.Role.minSalary role = Schema.InsertRole.minSalary insertRole /\
  Schema.Role.maxSalary role = Schema.InsertRole.maxSalary insertRole /\
  Schema.Role.responsibilities role = Schema.InsertRole.responsibilities insertRole /\
  (forall id : number,
     sameValueZero (currentRoleId this) id = false ->
     getRole this' id = getRole this id) /\
  employees this' = employees this.
Proof.
  simpl. split; [reflexivity |].
  assert (G : getRole (snd (createRole this insertRole)) (currentRoleId this)
              = Some (fst (createRole this insertRole))).
  { unfold getRole. simpl. apply mapGet_mapSet_same. }
  split; [exact G |]. split.
  { unfold getRoles. eapply mapGet_In. exact G. }
  repeat split.
  intros id H. unfold getRole. simpl. now apply mapGet_mapSet_other.
Qed.

Lemma createRole_then_getRole_witness :
  let this := Storage.new 1750000000000%float in
  let insertRole := Schema.InsertRole.mk "Analyst" "" "finance" 1%float "60000" "70000"
                      ["Reporting"]%string in
  sameValueZero (currentRoleId this) 1%float = false /\
  getRole (snd (createRole this insertRole)) 1%float = getRole this 1%float /\
  getRole (snd (createRole this insertRole)) 4%float
  = Some (fst (createRole this insertRole)).
Proof.
  cbv zeta. split; [reflexivity |].
  destruct (createRole_then_getRole (Storage.new 1750000000000%float)
              (Schema.InsertRole.mk "Analyst" "" "finance" 1%float "60000" "70000"
                 ["Reporting"]%string)) as [_ [Hget [_ [_ [_ [_ [Hother _]]]]]]].
  split; [apply Hother; reflexivity | exact Hget].
Defined.

Lemma find_mapSet_new {V : Type} (p : V -> bool) (m : list (number * V))
    (k : number) (v : V) :
  find p (mapValues m) = None -> p v = true ->
  find p (mapValues (mapSet m k v)) = Some v.
Proof.
  unfold mapValues. intros Hnone Hv. induction m as [| [k0 w] t IH]; simpl in *.
  - now rewrite Hv.
  - destruct (p w) eqn:Ew; [discriminate |].
    destruct (sameValueZero k0 k); simpl.
    + now rewrite Hv.
    + rewrite Ew. now apply IH.
Qed.

(** X8. [createEmployee] files the new employee under the current
    employee id with the clock's date and the inserted fields; an absent
    or empty status becomes ["active"] and any other status is kept; an
    absent or empty phone becomes [null] and any other phone is kept, so
    the status is never empty and the phone never the empty string;
    [getEmployee] with that id returns it with its role exactly when the
    role exists; it is found by its email when no stored employee had that
    email; every other id answers as before. *)
Theorem createEmployee_then_lookup (this : MemStorage) (now : Date)
    (insertEmployee : Schema.InsertEmployee.t) :
  let employee := fst (createEmployee this now insertEmployee) in
  let this' := snd (createEmployee this now insertEmployee) in
  Schema.Employee.id employee = currentEmployeeId this /\
  Schema.Employee.createdAt employee = now /\
  (Schema.Employee.firstName employee = Schema.InsertEmployee.firstName insertEmployee /\
   Schema.Employee.lastName employee = Schema.InsertEmployee.lastName insertEmployee /\
   Schema.Employee.email employee = Schema.InsertEmployee.email insertEmployee /\
   Schema.Employee.type employee = Schema.InsertEmployee.type insertEmployee /\
   Schema.Employee.department employee
   = Schema.InsertEmployee.department insertEmployee /\
   Schema.Employee.roleId employee = Schema.InsertEmployee.roleId insertEmployee /\
   Schema.Employee.salary employee = Schema.InsertEmployee.salary insertEmployee /\
   Schema.Employee.startDate employee
   = Schema.InsertEmployee.startDate insertEmployee) /\
  Schema.Employee.status employee
  = match Schema.InsertEmployee.status insertEmployee with
    | None => "active"%string
    | Some ""%string => "active"%string
    | Some s => s
    end /\
  Schema.Employee.phone employee
  = match Schema.InsertEmployee.phone insertEmployee with
    | None => None
    | Some ""%string => None
    | Some s => Some s
    end /\
  Schema.Employee.status employee <> ""%string /\
  Schema.Employee.phone employee <> Some ""%string /\
  getEmployee this' (JNum (Schema.Employee.id employee))
  = option_map (Schema.EmployeeWithRole.mk employee)
      (getRole this (Schema.InsertEmployee.roleId insertEmployee)) /\
  (getEmployeeByEmail this (Schema.InsertEmployee.email insertEmployee) = None ->
   getEmployeeByEmail this' (Schema.InsertEmployee.email insertEmployee)
   = Some employee) /\
  (forall id : number,
     sameValueZero (currentEmployeeId this) id = false ->
     getEmployee this' (JNum id) = getEmployee this (JNum id)) /\
  roles this' = roles this.
Proof.
  simpl. split; [reflexivity |]. split; [reflexivity |].
  split; [repeat split |]. split.
  { unfold orElse. destruct (Schema.InsertEmployee.status insertEmployee) as [[| c s] |];
      reflexivity. }
  split.
  { unfold orNull. destruct (Schema.InsertEmployee.phone insertEmployee) as [[| c s] |];
      reflexivity. }
  split.
  { unfold orElse. destruct (Schema.InsertEmployee.status insertEmployee) as [s |];
      [| discriminate].
    destruct (String.eqb_spec s ""); [discriminate | assumption]. }
  split.
  { unfold orNull. destruct (Schema.InsertEmployee.phone insertEmployee) as [s |];
      [| discriminate].
    destruct (String.eqb_spec s "") as [-> | Hne]; [discriminate |].
    intros H. injection H as ->. now contradiction Hne. }
  split.
  { unfold getEmployee, getRole. simpl. rewrite mapGet_mapSet_same. simpl.
    destruct (mapGet (roles this) _); reflexivity. }
  split.
  { intros Hfresh. unfold getEmployeeByEmail in *. simpl.
    apply find_mapSet_new; [exact Hfresh |]. simpl. apply String.eqb_refl. }
  split; [| reflexivity].
  intros id H. unfold getEmployee. simpl. now rewrite mapGet_mapSet_other.
Qed.

Lemma createEmployee_then_lookup_witness :
  let this := Storage.new 1750000000000%float in
  let insertEmployee :=
    Schema.InsertEmployee.mk "Kim" "Lee" "kim.lee@company.com" (Some "")
      "part-time" "engineering" 3%float "30" 1750000000000%float (Some "") in
  let employee := fst (createEmployee this 1750000000000%float insertEmployee) in
  getEmployeeByEmail this "kim.lee@company.com" = None /\
  getEmployeeByEmail (snd (createEmployee this 1750000000000%float insertEmployee))
    "kim.lee@company.com"
  = Some employee /\
  Schema.Employee.status employee = "active"%string /\
  Schema.Employee.phone employee = None /\
  Schema.Employee.salary employee = "30"%string.
Proof.
  cbv zeta. split; [reflexivity |].
  destruct (createEmployee_then_lookup (Storage.new 1750000000000%float)
              1750000000000%float
              (Schema.InsertEmployee.mk "Kim" "Lee" "kim.lee@company.com" (Some "")
                 "part-time" "engineering" 3%float "30" 1750000000000%float (Some "")))
    as [_ [_ [[_ [_ [_ [_ [_ [_ [Hsal _]]]]]]] [Hstatus [Hphone [_ [_ [_ [Hmail _]]]]]]]]].
  split; [exact (Hmail eq_refl) |]. split; [exact Hstatus |].
  split; [exact Hphone | exact Hsal].
Defined.

(** X9. [deleteRole] on a store with distinct keys: the role is gone, the
    answer tells whether it was there, and the employees stay in the
    store, so an employee of the deleted role is still found by email
    while [getEmployee] no longer returns it. *)
Theorem deleteRole_orphans_employees (this : MemStorage) (id : number) :
  wellKeyed this = true ->
  let this' := snd (deleteRole this id) in
  getRole this' id = None /\
  fst (deleteRole this id)
  = match getRole this id with Some _ => true | None => false end /\
  (forall id' : number,
     sameValueZero id id' = false -> getRole this' id' = getRole this id') /\
  employees this' = employees this /\
  (forall email : string,
     getEmployeeByEmail this' email = getEmployeeByEmail this email) /\
  (forall (key : JsValue) (employee : Schema.Employee.t),
     mapGet (employees this) key = Some employee ->
     sameValueZero (Schema.Employee.roleId employee) id = true ->
     getEmployee this' key = None).
Proof.
  intros K. unfold wellKeyed in K. apply andb_prop in K. destruct K as [Kr _].
  unfold deleteRole, getRole, getEmployee, getEmployeeByEmail.
  pose proof (mapGet_mapDelete_same (roles this) id Kr) as Hgone.
  pose proof (mapDelete_found (roles this) id) as Hfound.
  pose proof (fun id' => mapGet_mapDelete_other (roles this) id id') as Hother.
  destruct (mapDelete (roles this) id) as [roles' found]. simpl in *.
  split; [exact Hgone |]. split; [exact Hfound |]. split; [exact Hother |].
  split; [reflexivity |]. split; [reflexivity |].
  intros key employee G E. rewrite G.
  now rewrite (mapGet_same_key roles' _ _ E), Hgone.
Qed.

Lemma deleteRole_orphans_employees_witness :
  let this := Storage.new 1750000000000%float in
  wellKeyed this = true /\
  (exists employee,
     getEmployeeByEmail (snd (deleteRole this 3%float)) "alex.rivera@company.com"
     = Some employee /\ Schema.Employee.roleId employee = 3%float) /\
  getEmployee (snd (deleteRole this 3%float)) (JNum 3%float) = None.
Proof.
  split; [reflexivity |]. split.
  - eexists. split; reflexivity.
  - destruct (deleteRole_orphans_employees (Storage.new 1750000000000%float) 3%float
                eq_refl) as [_ [_ [_ [_ [_ H]]]]].
    eapply H; reflexivity.
Defined.

(** X10. [updateEmployee]: an id that is not in the store changes nothing
    and returns [undefined]; otherwise each of the ten fields of the
    stored row is the update's when the update has it and the old one
    when it has not, the [id] and the [createdAt] being kept; the updated
    row is what the id then returns, and no employee is added or
    dropped. *)
Theorem updateEmployee_merges (this : MemStorage) (id : number)
    (insertEmployee : PartialInsertEmployee.t) :
  (mapGet (employees this) (JNum id) = None ->
   updateEmployee this id insertEmployee = (None, this)) /\
  (forall existing : Schema.Employee.t,
     mapGet (employees this) (JNum id) = Some existing ->
     let updated := mergeEmployee existing insertEmployee in
     let this' := snd (updateEmployee this id insertEmployee) in
     fst (updateEmployee this id insertEmployee) = Some updated /\
     mapGet (employees this') (JNum id) = Some updated /\
     Schema.Employee.id updated = Schema.Employee.id existing /\
     Schema.Employee.createdAt updated = Schema.Employee.createdAt existing /\
     (
      Schema.Employee.firstName updated
      = match PartialInsertEmployee.firstName insertEmployee with
        | Some given => given
        | None => Schema.Employee.firstName existing
        end /\
      Schema.Employee.lastName updated
      = match PartialInsertEmployee.lastName insertEmployee with
        | Some given => given
        | None => Schema.Employee.lastName existing
        end /\
      Schema.Employee.email updated
      = match PartialInsertEmployee.email insertEmployee with
        | Some given => given
        | None => Schema.Employee.email existing
        end /\
      Schema.Employee.phone updated
      = match PartialInsertEmployee.phone insertEmployee with
        | Some given => given
        | None => Schema.Employee.phone existing
        end /\
      Schema.Employee.type updated
      = match PartialInsertEmployee.type insertEmployee with
        | Some given => given
        | None => Schema.Employee.type existing
        end /\
      Schema.Employee.department updated
      = match PartialInsertEmployee.department insertEmployee with
        | Some given => given
        | None => Schema.Employee.department existing
        end /\
      Schema.Employee.roleId updated
      = match PartialInsertEmployee.roleId insertEmployee with
        | Some given => given
        | None => Schema.Employee.roleId existing
        end /\
      Schema.Employee.salary updated
      = match PartialInsertEmployee.salary insertEmployee with
        | Some given => given
        | None => Schema.Employee.salary existing
        end /\
      Schema.Employee.startDate updated
      = match PartialInsertEmployee.startDate insertEmployee with
        | Some given => given
        | None => Schema.Employee.startDate existing
        end /\
      Schema.Employee.status updated
      = match PartialInsertEmployee.status insertEmployee with
        | Some given => given
        | None => Schema.Employee.status existing
        end) /\
     (forall s : string,
        PartialInsertEmployee.salary insertEmployee = Some s ->
        Schema.Employee.salary updated = s) /\
     (PartialInsertEmployee.salary insertEmployee = None ->
      Schema.Employee.salary updated = Schema.Employee.salary existing) /\
     map fst (employees this') = map fst (employees this) /\
     roles this' = roles this /\
     currentEmployeeId this' = currentEmployeeId this).
Proof.
  unfold updateEmployee. split.
  - intros ->. reflexivity.
  - intros existing G. rewrite G. simpl. split; [reflexivity |].
    split; [apply mapGet_mapSet_same |]. split; [reflexivity |].
    split; [reflexivity |].
    split; [unfold withDefault; repeat split |].
    split; [now intros s -> |]. split; [now intros -> |].
    split; [| split; reflexivity].
    revert G. generalize (mergeEmployee existing insertEmployee) as v.
    induction (employees this) as [| [k0 w0] t IH]; simpl; intros v.
    + discriminate.
    + destruct (sameValueZero k0 id); simpl; [reflexivity |].
      intros G. now rewrite (IH v G).
Qed.

Lemma updateEmployee_merges_witness :
  let this := Storage.new 1750000000000%float in
  let insertEmployee :=
    PartialInsertEmployee.mk None None None None None None None (Some "1") None None in
  (exists existing,
     mapGet (employees this) (JNum 1%float) = Some existing /\
     Schema.Employee.salary existing = "85000"%string) /\
  (exists updated,
     mapGet (employees (snd (updateEmployee this 1%float insertEmployee))) (JNum 1%float)
     = Some updated /\
     Schema.Employee.salary updated = "1"%string /\
     Schema.Employee.email updated = "sarah.johnson@company.com"%string).
Proof.
  split; [eexists; split; reflexivity |].
  destruct (updateEmployee_merges (Storage.new 1750000000000%float) 1%float
              (PartialInsertEmployee.mk None None None None None None None
                 (Some "1"%string) None None)) as [_ H].
  destruct (H _ eq_refl)
    as [_ [Hget [_ [_ [[_ [_ [Hmail [_ [_ [_ [_ [Hsal _]]]]]]]] _]]]]].
  eexists. split; [exact Hget |]. split; [exact Hsal | exact Hmail].
Defined.

Lemma getEmployees_fold (this : MemStorage) (l : list Schema.Employee.t)
    (acc : list Schema.EmployeeWithRole.t) :
  fold_left
    (fun result employee =>
       match mapGet (roles this) (JNum (Schema.Employee.roleId employee)) with
       | Some role => result ++ [Schema.EmployeeWithRole.mk employee role]
       | None => result
       end) l acc
  = acc ++ flat_map
             (fun employee =>
                match getRole this (Schema.Employee.roleId employee) with
                | Some role => [Schema.EmployeeWithRole.mk employee role]
                | None => []
                end) l.
Proof.
  revert acc. induction l as [| e t IH]; intros acc; simpl.
  - now rewrite app_nil_r.
  - rewrite IH. unfold getRole.
    destruct (mapGet (roles this) (JNum (Schema.Employee.roleId e))); simpl.
    + now rewrite <- app_assoc.
    + reflexivity.
Qed.

Lemma mapGet_of_entry {V : Type} (m : list (number * V)) (k : number) (v : V) :
  distinctKeys m = true -> In (k, v) m -> mapGet m (JNum k) = Some v.
Proof.
  induction m as [| [k0 w] t IH]; simpl; [intros _ [] |].
  intros K [E | Hin].
  - injection E as -> ->. now rewrite sameValueZero_refl.
  - apply andb_prop in K. destruct K as [Hfresh Kt].
    destruct (sameValueZero k0 k) eqn:E.
    + exfalso. apply negb_true_iff in Hfresh.
      assert (C : existsb (fun entry => sameValueZero (fst entry) k0) t = true).
      { apply existsb_exists. exists (k, v). split; [exact Hin |]. simpl.
        now rewrite sameValueZero_sym. }
      congruence.
    + now apply IH.
Qed.

(** X11. [getEmployees] lists, in the order of the map, the employees
    whose role is in the store, each joined with that role; the others are
    left out. In a store with distinct keys whose rows are filed under
    their ids (as the stores that the methods produce are), [getEmployee]
    with the id of a listed employee returns the same joined row. *)
Theorem getEmployees_joins_roles (this : MemStorage) :
  map Schema.EmployeeWithRole.employee (getEmployees this)
  = filter (fun employee =>
              match getRole this (Schema.Employee.roleId employee) with
              | Some _ => true
              | None => false
              end) (mapValues (employees this)) /\
  Forall (fun row =>
            getRole this (Schema.Employee.roleId (Schema.EmployeeWithRole.employee row))
            = Some (Schema.EmployeeWithRole.role row)) (getEmployees this) /\
  (wellKeyed this = true -> idsAreKeys this ->
   forall row : Schema.EmployeeWithRole.t,
     In row (getEmployees this) ->
     getEmployee this
       (JNum (Schema.Employee.id (Schema.EmployeeWithRole.employee row)))
     = Some row).
Proof.
  unfold getEmployees. rewrite getEmployees_fold. simpl.
  split; [| split].
  - induction (mapValues (employees this)) as [| e t IH]; simpl; [reflexivity |].
    destruct (getRole this (Schema.Employee.roleId e)); simpl; now rewrite IH.
  - apply Forall_forall. intros row Hin. apply in_flat_map in Hin.
    destruct Hin as [e [_ He]].
    destruct (getRole this (Schema.Employee.roleId e)) eqn:G; [| destruct He].
    destruct He as [<- | []]. exact G.
  - intros K [_ Fe] row Hin. apply in_flat_map in Hin. destruct Hin as [e [He Hrow]].
    unfold wellKeyed in K. apply andb_prop in K. destruct K as [_ Ke].
    unfold mapValues in He. apply in_map_iff in He. destruct He as [[k e'] [E Hentry]].
    simpl in E. subst e'.
    rewrite Forall_forall in Fe. specialize (Fe _ Hentry). simpl in Fe.
    destruct (getRole this (Schema.Employee.roleId e)) eqn:G; [| destruct Hrow].
    destruct Hrow as [<- | []]. simpl. unfold getEmployee.
    rewrite (mapGet_same_key _ _ _ Fe), (mapGet_of_entry _ _ _ Ke Hentry).
    unfold getRole in G. now rewrite G.
Qed.

Lemma wellKeyed_deleteRole (this : MemStorage) (id : number) :
  wellKeyed this = true -> wellKeyed (snd (deleteRole this id)) = true.
Proof.
  unfold wellKeyed, deleteRole. intros K. apply andb_prop in K. destruct K as [Kr Ke].
  pose proof (distinctKeys_mapDelete _ id Kr) as Kd.
  destruct (mapDelete (roles this) id) as [roles' found]. simpl in *.
  now rewrite Kd, Ke.
Qed.

Lemma idsAreKeys_deleteRole (this : MemStorage) (id : number) :
  idsAreKeys this -> idsAreKeys (snd (deleteRole this id)).
Proof.
  unfold idsAreKeys, deleteRole. intros [Fr Fe].
  pose proof (Forall_mapDelete _ _ id Fr) as Fd.
  destruct (mapDelete (roles this) id) as [roles' found]. simpl in *.
  split; assumption.
Qed.

Lemma getEmployees_joins_roles_witness :
  let this := snd (deleteRole (Storage.new 1750000000000%float) 2%float) in
  wellKeyed this = true /\
  map (fun row => Schema.Employee.email (Schema.EmployeeWithRole.employee row))
      (getEmployees this)
  = ["sarah.johnson@company.com"; "alex.rivera@company.com"]%string /\
  forall row : Schema.EmployeeWithRole.t,
    In row (getEmployees this) ->
    getEmployee this (JNum (Schema.Employee.id (Schema.EmployeeWithRole.employee row)))
    = Some row.
Proof.
  split; [reflexivity |]. split; [reflexivity |].
  apply (proj2 (proj2 (getEmployees_joins_roles
                         (snd (deleteRole (Storage.new 1750000000000%float) 2%float))))).
  - reflexivity.
  - apply idsAreKeys_deleteRole, idsAreKeys_new.
Defined.

Lemma filter_types_length (l : list Schema.Employee.t) :
  (List.length (filter isFullTime l) + List.length (filter isPartTime l)
   + List.length (filter (fun e => negb (isFullTime e) && negb (isPartTime e)) l)
   = List.length l)%nat.
Proof.
  induction l as [| e t IH]; simpl; [reflexivity |].
  unfold isFullTime, isPartTime in *.
  destruct (String.eqb_spec (Schema.Employee.type e) "full-time") as [E | _].
  - rewrite E. simpl. lia.
  - destruct (String.eqb (Schema.Employee.type e) "part-time"); simpl; lia.
Qed.

(** X12. In [getStats] the total counts the employees whose status is
    ["active"], whatever their type; the full-time and the part-time
    counts together never exceed it, and they add up to it exactly when
    no active employee has a third type. *)
Theorem getStats_counts (this : MemStorage) :
  let stats := getStats this in
  let active := filter isActive (mapValues (employees this)) in
  totalEmployees stats = List.length active /\
  (fullTimeEmployees stats + partTimeEmployees stats <= totalEmployees stats)%nat /\
  ((fullTimeEmployees stats + partTimeEmployees stats = totalEmployees stats)%nat <->
   Forall (fun employee =>
             Schema.Employee.type employee = "full-time"%string \/
             Schema.Employee.type employee = "part-time"%string) active).
Proof.
  simpl. set (active := filter isActive (mapValues (employees this))).
  pose proof (filter_types_length active) as L.
  split; [reflexivity |]. split; [lia |].
  split.
  - intros E.
    assert (Z : List.length
                  (filter (fun e => negb (isFullTime e) && negb (isPartTime e)) active)
                = 0%nat) by lia.
    apply length_zero_iff_nil in Z.
    apply Forall_forall. intros e He.
    destruct (String.eqb_spec (Schema.Employee.type e) "full-time") as [Ef | Nf];
      [now left |].
    destruct (String.eqb_spec (Schema.Employee.type e) "part-time") as [Ep | Np];
      [now right |].
    exfalso.
    assert (C : In e (filter (fun e => negb (isFullTime e) && negb (isPartTime e))
                             active)).
    { apply filter_In. split; [exact He |]. unfold isFullTime, isPartTime.
      apply String.eqb_neq in Nf. apply String.eqb_neq in Np. now rewrite Nf, Np. }
    rewrite Z in C. destruct C.
  - intros F.
    assert (Z : filter (fun e => negb (isFullTime e) && negb (isPartTime e)) active = []).
    { clear L. induction active as [| e t IH]; simpl; [reflexivity |].
      inversion F as [| x l Hx Ht]; subst.
      unfold isFullTime, isPartTime in *.
      destruct Hx as [-> | ->]; simpl; now apply IH. }
    rewrite Z in L. simpl in L. lia.
Qed.

(** X13. The payroll figure of [getStats] is the rounded sum, over the
    active employees in the order of the map, of the monthly salary that
    the domain class of the employee computes; an employee whose type the
    factory rejects is counted as 80 hours at its salary. *)
Theorem getStats_payroll_follows_domain (this : MemStorage)
    (roleOf : Schema.Employee.t -> Role.Role) :
  monthlyPayroll (getStats this)
  = Builtins.mathRound
      (fold_left
         (fun sum employee =>
            (sum +
             match Employee.createEmployee
                     (Schema.Employee.id employee) (Schema.Employee.firstName employee)
                     (Schema.Employee.lastName employee) (Schema.Employee.email employee)
                     (Schema.Employee.type employee) (roleOf employee)
                     (Schema.Employee.startDate employee)
                     (parseFloat (Schema.Employee.salary employee)) with
             | Ok domain =>
                 @Employee.calculateMonthlySalary _ Employee.BaseMethods domain
             | Throw _ => parseFloat (Schema.Employee.salary employee) * 80
             end)%float)
         (filter isActive (mapValues (employees this))) 0%float).
Proof.
  simpl. f_equal.
  generalize 0%float as sum.
  induction (filter isActive (mapValues (employees this))) as [| e t IH]; intros sum;
    simpl; [reflexivity |].
  rewrite <- IH. f_equal.
  unfold addToPayroll, isFullTime, Employee.createEmployee.
  destruct (String.eqb (Schema.Employee.type e) "full-time"); [reflexivity |].
  destruct (String.eqb (Schema.Employee.type e) "part-time"); reflexivity.
Qed.

End StoreMethods.

(** ** More on [POST /api/payslips/calculate] *)

Section CalculateMore.

Import Employee PayslipCalculator Routes.
Local Open Scope float_scope.

Variable numberToString : number -> string.

(** The handler once the four fields are read and the guard is passed. *)
Lemma calculate_past_guard (storage : Storage.MemStorage)
    (reqBody employeeId hoursWorked overtimeHours deductions : JsValue) :
  getProperty reqBody "employeeId" = Ok employeeId ->
  getProperty reqBody "hoursWorked" = Ok hoursWorked ->
  getProperty reqBody "overtimeHours" = Ok overtimeHours ->
  getProperty reqBody "deductions" = Ok deductions ->
  toBoolean employeeId = true -> toBoolean hoursWorked = true ->
  postPayslipsCalculate numberToString storage reqBody
  = match Storage.getEmployee storage employeeId with
    | None => (json 404 (Message "Employee not found"), [])
    | Some employeeWithRole =>
        let row := Schema.EmployeeWithRole.employee employeeWithRole in
        match createEmployee (Schema.Employee.id row) (Schema.Employee.firstName row)
                (Schema.Employee.lastName row) (Schema.Employee.email row)
                (Schema.Employee.type row)
                (roleObjOf (Schema.EmployeeWithRole.role employeeWithRole))
                (Schema.Employee.startDate row)
                (parseFloat (Schema.Employee.salary row)) with
        | Throw _ => (json 500 (Message "Failed to calculate payslip"), [CreateEmployee])
        | Ok employee =>
            match createCalculator employee with
            | Throw _ =>
                (json 500 (Message "Failed to calculate payslip"),
                 [CreateEmployee; CreateCalculator])
            | Ok calculator =>
                match toString numberToString hoursWorked,
                      toString numberToString (orDefault overtimeHours (JNum 0)),
                      toString numberToString (orDefault deductions (JNum 0)) with
                | Ok h, Ok o, Ok d =>
                    (json 200
                       (Payslip (calculatePayslip calculator (parseFloat h)
                                   (Some (parseFloat o)) (Some (parseFloat d)))),
                     [CreateEmployee; CreateCalculator;
                      CalculatePayslip (parseFloat h) (parseFloat o) (parseFloat d)])
                | _, _, _ =>
                    (json 500 (Message "Failed to calculate payslip"),
                     [CreateEmployee; CreateCalculator])
                end
            end
        end
    end.
Proof.
  intros He Hh Ho Hd Te Th.
  unfold postPayslipsCalculate, calculateBody.
  rewrite He, Hh, Ho, Hd. unfold step, andThen at 1 2 3 4.
  rewrite Te, Th. simpl negb. simpl orb. cbv iota.
  destruct (Storage.getEmployee storage employeeId) as [ewr |]; [| reflexivity].
  cbv zeta. unfold call, ret, andThen.
  destruct (createEmployee _ _ _ _ _ _ _ _) as [employee | err]; [| reflexivity].
  destruct (createCalculator employee) as [calculator | err]; [| reflexivity].
  destruct (toString numberToString hoursWorked) as [h | err]; [| reflexivity].
  destruct (toString numberToString (orDefault overtimeHours (JNum 0)))
    as [o | err]; [| reflexivity].
  destruct (toString numberToString (orDefault deductions (JNum 0)))
    as [d | err]; reflexivity.
Qed.

(** X14. With a truthy [employeeId] and [hoursWorked], a body whose
    [employeeId] names no employee with a role in the store is answered
    404 [Employee not found], without any call into the domain classes. An
    [employeeId] that is not a number (the string ["1"], say) names none. *)
Theorem calculate_employee_not_found (storage : Storage.MemStorage)
    (reqBody employeeId hoursWorked : JsValue) :
  getProperty reqBody "employeeId" = Ok employeeId ->
  getProperty reqBody "hoursWorked" = Ok hoursWorked ->
  toBoolean employeeId = true -> toBoolean hoursWorked = true ->
  Storage.getEmployee storage employeeId = None \/ (forall n, employeeId <> JNum n) ->
  postPayslipsCalculate numberToString storage reqBody
  = (json 404 (Message "Employee not found"), []).
Proof.
  intros He Hh Te Th Hnone.
  destruct (getProperty_defined _ _ _ "overtimeHours" He) as [o Ho].
  destruct (getProperty_defined _ _ _ "deductions" He) as [d Hd].
  rewrite (calculate_past_guard _ _ _ _ _ _ He Hh Ho Hd Te Th).
  assert (G : Storage.getEmployee storage employeeId = None).
  { destruct Hnone as [G | Hnan]; [exact G |].
    unfold Storage.getEmployee. now rewrite (mapGet_not_a_number _ _ Hnan). }
  now rewrite G.
Qed.

(** X15. When the stored employee has a type other than ["full-time"] and
    ["part-time"], the factory's exception is caught: the answer is 500
    [Failed to calculate payslip], and no calculator is created or run. *)
Theorem calculate_unknown_type (storage : Storage.MemStorage)
    (reqBody employeeId hoursWorked : JsValue) (found : Schema.EmployeeWithRole.t) :
  getProperty reqBody "employeeId" = Ok employeeId ->
  getProperty reqBody "hoursWorked" = Ok hoursWorked ->
  toBoolean employeeId = true -> toBoolean hoursWorked = true ->
  Storage.getEmployee storage employeeId = Some found ->
  Schema.Employee.type (Schema.EmployeeWithRole.employee found) <> "full-time"%string ->
  Schema.Employee.type (Schema.EmployeeWithRole.employee found) <> "part-time"%string ->
  postPayslipsCalculate numberToString storage reqBody
  = (json 500 (Message "Failed to calculate payslip"), [CreateEmployee]).
Proof.
  intros He Hh Te Th G Nf Np.
  destruct (getProperty_defined _ _ _ "overtimeHours" He) as [o Ho].
  destruct (getProperty_defined _ _ _ "deductions" He) as [d Hd].
  rewrite (calculate_past_guard _ _ _ _ _ _ He Hh Ho Hd Te Th), G. cbv zeta.
  unfold createEmployee.
  apply String.eqb_neq in Nf. apply String.eqb_neq in Np. now rewrite Nf, Np.
Qed.

Lemma known_type_creates (id : number) (firstName lastName email type : string)
    (role : Role.Role) (startDate : Date) (salary : number) :
  type = "full-time"%string \/ type = "part-time"%string ->
  exists (employee : BaseEmployee) (calculator : AnyCalculator),
    createEmployee id firstName lastName email type role startDate salary = Ok employee /\
    createCalculator employee = Ok calculator /\
    forall (h : number) (o d : option number),
      basePay (calculatePayslip calculator h o d)
      = if String.eqb type "full-time" then salary / 12 else salary * h.
Proof.
  intros [-> | ->]; do 2 eexists; repeat split.
Qed.

(** X16. The defaults of [overtimeHours] and [deductions] replace an
    absent field only: a body that carries [null] for one of them, for an
    employee of a known type, is answered 500 [Failed to calculate
    payslip], and no payslip is calculated. *)
Theorem calculate_null_optional_field (storage : Storage.MemStorage)
    (reqBody employeeId hoursWorked : JsValue) (found : Schema.EmployeeWithRole.t) :
  getProperty reqBody "employeeId" = Ok employeeId ->
  getProperty reqBody "hoursWorked" = Ok hoursWorked ->
  toBoolean employeeId = true -> toBoolean hoursWorked = true ->
  Storage.getEmployee storage employeeId = Some found ->
  Schema.Employee.type (Schema.EmployeeWithRole.employee found) = "full-time"%string \/
  Schema.Employee.type (Schema.EmployeeWithRole.employee found) = "part-time"%string ->
  getProperty reqBody "overtimeHours" = Ok JNull \/
  getProperty reqBody "deductions" = Ok JNull ->
  postPayslipsCalculate numberToString storage reqBody
  = (json 500 (Message "Failed to calculate payslip"),
     [CreateEmployee; CreateCalculator]).
Proof.
  intros He Hh Te Th G Hknown Hnull.
  destruct (getProperty_defined _ _ _ "overtimeHours" He) as [o Ho].
  destruct (getProperty_defined _ _ _ "deductions" He) as [d Hd].
  rewrite (calculate_past_guard _ _ _ _ _ _ He Hh Ho Hd Te Th), G. cbv zeta.
  destruct (known_type_creates
              (Schema.Employee.id (Schema.EmployeeWithRole.employee found))
              (Schema.Employee.firstName (Schema.EmployeeWithRole.employee found))
              (Schema.Employee.lastName (Schema.EmployeeWithRole.employee found))
              (Schema.Employee.email (Schema.EmployeeWithRole.employee found))
              _ (roleObjOf (Schema.EmployeeWithRole.role found))
              (Schema.Employee.startDate (Schema.EmployeeWithRole.employee found))
              (parseFloat (Schema.Employee.salary (Schema.EmployeeWithRole.employee found)))
              Hknown) as [employee [calculator [-> [-> _]]]].
  destruct Hnull as [Hn | Hn].
  - rewrite Hn in Ho. injection Ho as <-. simpl.
    destruct (toString numberToString hoursWorked); reflexivity.
  - rewrite Hn in Hd. injection Hd as <-. simpl.
    destruct (toString numberToString hoursWorked); [| reflexivity].
    destruct (toString numberToString (orDefault o (JNum 0))); reflexivity.
Qed.

(** X17. For a stored employee of a known type and fields that have a
    string form, the answer is 200 with the payslip of the numbers that
    [parseFloat] reads in those string forms, an absent [overtimeHours] or
    [deductions] counting as the number [0]: the base pay is the stored
    salary over 12 for a full-time employee and the stored salary times
    the hours otherwise, and the three domain calls are made once each. *)
Theorem calculate_success (storage : Storage.MemStorage)
    (reqBody employeeId hoursWorked overtimeHours deductions : JsValue)
    (found : Schema.EmployeeWithRole.t) (h o d : string) :
  getProperty reqBody "employeeId" = Ok employeeId ->
  getProperty reqBody "hoursWorked" = Ok hoursWorked ->
  getProperty reqBody "overtimeHours" = Ok overtimeHours ->
  getProperty reqBody "deductions" = Ok deductions ->
  toBoolean employeeId = true -> toBoolean hoursWorked = true ->
  Storage.getEmployee storage employeeId = Some found ->
  Schema.Employee.type (Schema.EmployeeWithRole.employee found) = "full-time"%string \/
  Schema.Employee.type (Schema.EmployeeWithRole.employee found) = "part-time"%string ->
  toString numberToString hoursWorked = Ok h ->
  toString numberToString (orDefault overtimeHours (JNum 0)) = Ok o ->
  toString numberToString (orDefault deductions (JNum 0)) = Ok d ->
  exists result : PayslipResult,
    postPayslipsCalculate numberToString storage reqBody
    = (json 200 (Payslip result),
       [CreateEmployee; CreateCalculator;
        CalculatePayslip (parseFloat h) (parseFloat o) (parseFloat d)]) /\
    PayslipCalculator.hoursWorked result = parseFloat h /\
    PayslipCalculator.overtimeHours result = parseFloat o /\
    PayslipCalculator.deductions result = parseFloat d /\
    basePay result
    = (let salary :=
         parseFloat (Schema.Employee.salary (Schema.EmployeeWithRole.employee found)) in
       if String.eqb (Schema.Employee.type (Schema.EmployeeWithRole.employee found))
                     "full-time"
       then salary / 12 else salary * parseFloat h) /\
    grossPay result = basePay result + overtimePay result /\
    netPay result = grossPay result - parseFloat d.
Proof.
  intros He Hh Ho Hd Te Th G Hknown Sh So Sd.
  rewrite (calculate_past_guard _ _ _ _ _ _ He Hh Ho Hd Te Th), G. cbv zeta.
  destruct (known_type_creates
              (Schema.Employee.id (Schema.EmployeeWithRole.employee found))
              (Schema.Employee.firstName (Schema.EmployeeWithRole.employee found))
              (Schema.Employee.lastName (Schema.EmployeeWithRole.employee found))
              (Schema.Employee.email (Schema.EmployeeWithRole.employee found))
              _ (roleObjOf (Schema.EmployeeWithRole.role found))
              (Schema.Employee.startDate (Schema.EmployeeWithRole.employee found))
              (parseFloat (Schema.Employee.salary (Schema.EmployeeWithRole.employee found)))
              Hknown) as [employee [calculator [-> [-> Hbase]]]].
  rewrite Sh, So, Sd. eexists. split; [reflexivity |].
  split; [reflexivity |]. split; [reflexivity |]. split; [reflexivity |].
  split; [apply Hbase |]. split; reflexivity.
Qed.

End CalculateMore.

Section CalculateExamples.

Import Employee PayslipCalculator Routes.
Local Open Scope float_scope.

Lemma calculate_employee_not_found_witness :
  let reqBody := JObj [("employeeId", JStr "1"); ("hoursWorked", JNum 8)] in
  toBoolean (JStr "1") = true /\ toBoolean (JNum 8) = true /\
  forall numberToString : number -> string,
    postPayslipsCalculate numberToString (Storage.new 1750000000000) reqBody
    = (json 404 (Message "Employee not found"), []).
Proof.
  cbv zeta. split; [reflexivity |]. split; [reflexivity |].
  intros numberToString.
  apply (calculate_employee_not_found numberToString (Storage.new 1750000000000)
           (JObj [("employeeId", JStr "1"); ("hoursWorked", JNum 8)])
           (JStr "1") (JNum 8) eq_refl eq_refl eq_refl eq_refl).
  right. intros n. discriminate.
Defined.

Lemma calculate_unknown_type_witness :
  let storage :=
    snd (Storage.createEmployee (Storage.new 1750000000000) 1750000000000
           (Schema.InsertEmployee.mk "Kim" "Lee" "kim.lee@company.com" None
              "contractor" "engineering" 1 "80000" 1750000000000 None)) in
  let reqBody := JObj [("employeeId", JNum 4); ("hoursWorked", JNum 8)] in
  (exists found,
     Storage.getEmployee storage (JNum 4) = Some found /\
     Schema.Employee.type (Schema.EmployeeWithRole.employee found)
     = "contractor"%string) /\
  forall numberToString : number -> string,
    postPayslipsCalculate numberToString storage reqBody
    = (json 500 (Message "Failed to calculate payslip"), [CreateEmployee]).
Proof.
  cbv zeta. split; [eexists; split; reflexivity |].
  intros numberToString.
  eapply (calculate_unknown_type numberToString
            (snd (Storage.createEmployee (Storage.new 1750000000000) 1750000000000
                    (Schema.InsertEmployee.mk "Kim" "Lee" "kim.lee@company.com" None
                       "contractor" "engineering" 1 "80000" 1750000000000 None)))
            (JObj [("employeeId", JNum 4); ("hoursWorked", JNum 8)])
            (JNum 4) (JNum 8) _ eq_refl eq_refl eq_refl eq_refl eq_refl);
    discriminate.
Defined.

Lemma calculate_null_optional_field_witness :
  let reqBody := JObj [("employeeId", JNum 1); ("hoursWorked", JNum 8);
                       ("overtimeHours", JNull)] in
  getProperty reqBody "overtimeHours" = Ok JNull /\
  forall numberToString : number -> string,
    postPayslipsCalculate numberToString (Storage.new 1750000000000) reqBody
    = (json 500 (Message "Failed to calculate payslip"),
       [CreateEmployee; CreateCalculator]).
Proof.
  cbv zeta. split; [reflexivity |].
  intros numberToString.
  eapply (calculate_null_optional_field numberToString (Storage.new 1750000000000)
            (JObj [("employeeId", JNum 1); ("hoursWorked", JNum 8);
                   ("overtimeHours", JNull)])
            (JNum 1) (JNum 8) _ eq_refl eq_refl eq_refl eq_refl eq_refl).
  - left. reflexivity.
  - left. reflexivity.
Defined.

Lemma calculate_success_witness :
  let reqBody := JObj [("employeeId", JNum 3); ("hoursWorked", JStr "80");
                       ("overtimeHours", JStr "5"); ("deductions", JStr "50")] in
  toBoolean (JStr "80") = true /\
  forall numberToString : number -> string,
  exists result : PayslipResult,
    postPayslipsCalculate numberToString (Storage.new 1750000000000) reqBody
    = (json 200 (Payslip result),
       [CreateEmployee; CreateCalculator; CalculatePayslip 80 5 50]) /\
    basePay result = 35 * 80 /\
    netPay result = grossPay result - 50.
Proof.
  cbv zeta. split; [reflexivity |].
  intros numberToString.
  destruct (calculate_success numberToString (Storage.new 1750000000000)
              (JObj [("employeeId", JNum 3); ("hoursWorked", JStr "80");
                     ("overtimeHours", JStr "5"); ("deductions", JStr "50")])
              (JNum 3) (JStr "80") (JStr "5") (JStr "50") _ "80" "5" "50"
              eq_refl eq_refl eq_refl eq_refl eq_refl eq_refl eq_refl
              (or_intror eq_refl) eq_refl eq_refl eq_refl)
    as [result [Hr [_ [_ [_ [Hb [_ Hn]]]]]]].
  exists result. split; [exact Hr |]. split; [exact Hb | exact Hn].
Defined.

End CalculateExamples.

(** ** More on creating and updating employees *)

Section EmployeesMore.

Import Builtins Storage StorageCrud StoreInvariant Routes RoutesCrud.
Local Open Scope list_scope.

Lemma createEmployee_found_by_email (storage : MemStorage) (now : Date)
    (data : Schema.InsertEmployee.t) :
  getEmployeeByEmail storage (Schema.InsertEmployee.email data) = None ->
  getEmployeeByEmail (snd (createEmployee storage now data))
    (Schema.InsertEmployee.email data)
  = Some (fst (createEmployee storage now data)).
Proof.
  intros Hfresh. unfold getEmployeeByEmail in *. simpl.
  apply find_mapSet_new; [exact Hfresh |]. simpl. apply String.eqb_refl.
Qed.

Lemma createEmployee_found_by_id (storage : MemStorage) (now : Date)
    (data : Schema.InsertEmployee.t) (role : Schema.Role.t) :
  getRole storage (Schema.InsertEmployee.roleId data) = Some role ->
  getEmployee (snd (createEmployee storage now data)) (JNum (currentEmployeeId storage))
  = Some (Schema.EmployeeWithRole.mk (fst (createEmployee storage now data)) role).
Proof.
  unfold getEmployee, getRole. simpl. intros Hrole.
  rewrite mapGet_mapSet_same. simpl. now rewrite Hrole.
Qed.

(** X18. A creation request that passed validation, with an email that no
    stored employee has, an existing role and a salary inside its band,
    is answered 201 with the employee that [createEmployee] stores: its
    id is the current employee id, and it is then found by its email. *)
Theorem postEmployees_success (storage : MemStorage) (now : Date)
    (data : Schema.InsertEmployee.t) (role : Schema.Role.t) :
  getEmployeeByEmail storage (Schema.InsertEmployee.email data) = None ->
  getRole storage (Schema.InsertEmployee.roleId data) = Some role ->
  Role.isSalaryInRange (roleObjOf role)
    (parseFloat (Schema.InsertEmployee.salary data)) = true ->
  let employee := fst (createEmployee storage now data) in
  let storage' := snd (postEmployees storage now (Schema.Success data)) in
  postEmployees storage now (Schema.Success data)
  = (json 201 (Created employee), snd (createEmployee storage now data)) /\
  Schema.Employee.id employee = currentEmployeeId storage /\
  getEmployeeByEmail storage' (Schema.InsertEmployee.email data) = Some employee /\
  getEmployee storage' (JNum (Schema.Employee.id employee))
  = Some (Schema.EmployeeWithRole.mk employee role).
Proof.
  intros Hfresh Hrole Hband.
  assert (E : postEmployees storage now (Schema.Success data)
              = (json 201 (Created (fst (createEmployee storage now data))),
                 snd (createEmployee storage now data))).
  { unfold postEmployees. rewrite Hfresh, Hrole, Hband. reflexivity. }
  cbv zeta. rewrite E.
  split; [reflexivity |]. split; [reflexivity |].
  split; [exact (createEmployee_found_by_email storage now data Hfresh) |].
  exact (createEmployee_found_by_id storage now data role Hrole).
Qed.

Lemma postEmployees_success_witness :
  let storage := Storage.new 1750000000000%float in
  let data := Schema.InsertEmployee.mk "Kim" "Lee" "kim.lee@company.com" None
                "full-time" "engineering" 1%float "80000" 1750000000000%float None in
  getEmployeeByEmail storage "kim.lee@company.com" = None /\
  exists employee : Schema.Employee.t,
    fst (postEmployees storage 1750000000000%float (Schema.Success data))
    = json 201 (Created employee) /\
    Schema.Employee.id employee = 4%float /\
    getEmployeeByEmail
      (snd (postEmployees storage 1750000000000%float (Schema.Success data)))
      "kim.lee@company.com" = Some employee.
Proof.
  cbv zeta. split; [reflexivity |].
  destruct (postEmployees_success (Storage.new 1750000000000%float) 1750000000000%float
              (Schema.InsertEmployee.mk "Kim" "Lee" "kim.lee@company.com" None
                 "full-time" "engineering" 1%float "80000" 1750000000000%float None)
              (Schema.Role.mk 1%float "Senior Developer"
                 "Responsible for developing and maintaining software applications"
                 "engineering" 3%float "75000" "95000"
                 ["Code development and review"; "Technical documentation";
                  "Mentoring junior developers"]%string)
              eq_refl eq_refl eq_refl) as [Hpost [Hid [Hmail _]]].
  eexists. split; [now rewrite Hpost |]. split; [exact Hid | exact Hmail].
Defined.

Lemma find_email_None (l : list Schema.Employee.t) (email : string) :
  find (fun emp => String.eqb (Schema.Employee.email emp) email) l = None ->
  ~ In email (map Schema.Employee.email l).
Proof.
  induction l as [| e t IH]; simpl; [intros _ [] |].
  destruct (String.eqb_spec (Schema.Employee.email e) email) as [E | N]; [discriminate |].
  intros H [E | Hin]; [contradiction | exact (IH H Hin)].
Qed.

Lemma emails_mapSet_subset (m : list (number * Schema.Employee.t)) (k : number)
    (v : Schema.Employee.t) (y : string) :
  In y (map Schema.Employee.email (mapValues (mapSet m k v))) ->
  y = Schema.Employee.email v \/ In y (map Schema.Employee.email (mapValues m)).
Proof.
  unfold mapValues. induction m as [| [k0 w] t IH]; simpl.
  - intros [E | []]. now left.
  - destruct (sameValueZero k0 k); simpl.
    + intros [E | Hin]; [now left | now right; right].
    + intros [E | Hin]; [now right; left |].
      destruct (IH Hin) as [E | Hin']; [now left | now right; right].
Qed.

Lemma emails_mapSet_NoDup (m : list (number * Schema.Employee.t)) (k : number)
    (v : Schema.Employee.t) :
  NoDup (map Schema.Employee.email (mapValues m)) ->
  ~ In (Schema.Employee.email v) (map Schema.Employee.email (mapValues m)) ->
  NoDup (map Schema.Employee.email (mapValues (mapSet m k v))).
Proof.
  unfold mapValues. induction m as [| [k0 w] t IH]; simpl; intros Hnd Hfresh.
  - constructor; [intros [] | constructor].
  - inversion Hnd as [| x l Hx Ht]; subst.
    destruct (sameValueZero k0 k); simpl.
    + constructor; [| exact Ht]. intros Hin. apply Hfresh. now right.
    + constructor.
      * intros Hin. destruct (emails_mapSet_subset t k v _ Hin) as [E | Hin'].
        -- apply Hfresh. now left.
        -- exact (Hx Hin').
      * apply IH; [exact Ht |]. intros Hin. apply Hfresh. now right.
Qed.

(** X19. [POST /api/employees] keeps the emails of the store distinct:
    whatever the request and its outcome, a store in which no two
    employees share an email is still such a store afterwards. *)
Theorem postEmployees_keeps_emails_distinct (storage : MemStorage) (now : Date)
    (validation : Schema.SafeParse Schema.InsertEmployee.t) :
  NoDup (emails storage) ->
  NoDup (emails (snd (postEmployees storage now validation))).
Proof.
  intros Hnd. unfold postEmployees.
  destruct validation as [data | errors]; [| exact Hnd].
  destruct (getEmployeeByEmail storage (Schema.InsertEmployee.email data)) eqn:Hmail;
    [exact Hnd |].
  destruct (getRole storage (Schema.InsertEmployee.roleId data)) as [role |];
    [| exact Hnd].
  destruct (negb _); [exact Hnd |].
  unfold emails. simpl. apply emails_mapSet_NoDup; [exact Hnd |].
  simpl. now apply find_email_None.
Qed.

Lemma postEmployees_keeps_emails_distinct_witness :
  let storage := Storage.new 1750000000000%float in
  let data := Schema.InsertEmployee.mk "Kim" "Lee" "kim.lee@company.com" None
                "full-time" "engineering" 1%float "80000" 1750000000000%float None in
  NoDup (emails storage) /\
  NoDup (emails (snd (postEmployees storage 1750000000000%float (Schema.Success data)))).
Proof.
  assert (H : NoDup (emails (Storage.new 1750000000000%float))).
  { cbv. repeat constructor; simpl; intuition discriminate. }
  split; [exact H |].
  apply postEmployees_keeps_emails_distinct. exact H.
Defined.

Lemma mapSet_contains {V : Type} (m : list (number * V)) (k : number) (v : V) :
  In v (mapValues (mapSet m k v)).
Proof.
  unfold mapValues. induction m as [| [k0 w] t IH]; simpl; [now left |].
  destruct (sameValueZero k0 k); simpl; [now left | now right].
Qed.

Lemma emails_mapSet_duplicate (m : list (number * Schema.Employee.t)) (k k2 : number)
    (v other : Schema.Employee.t) :
  In (k2, other) m -> sameValueZero k2 k = false ->
  Schema.Employee.email v = Schema.Employee.email other ->
  ~ NoDup (map Schema.Employee.email (mapValues (mapSet m k v))).
Proof.
  unfold mapValues. intros Hin Hk Hmail.
  induction m as [| [k0 w] t IH]; simpl; [destruct Hin |].
  destruct (sameValueZero k0 k) eqn:E; simpl; intros Hnd;
    inversion Hnd as [| x l Hx Ht]; subst.
  - destruct Hin as [Heq | Hin].
    + injection Heq as -> ->. congruence.
    + apply Hx. rewrite Hmail.
      apply in_map. apply (in_map snd) in Hin. exact Hin.
  - destruct Hin as [Heq | Hin].
    + injection Heq as -> ->. apply Hx. rewrite <- Hmail.
      apply in_map. apply mapSet_contains.
    + exact (IH Hin Ht).
Qed.

(** X20. [PUT /api/employees/:id] answers 404 and changes nothing when
    the id is not in the store, and otherwise answers 200 with the merged
    row for every update that passed validation: neither the salary band
    of the role nor the uniqueness of the email is checked. An update that
    gives one employee the email of another leaves two employees with the
    same email. *)
Theorem putEmployeesId_is_unchecked (storage : MemStorage) (idParam : string)
    (data : PartialInsertEmployee.t) :
  let id := parseInt idParam in
  (mapGet (employees storage) (JNum id) = None ->
   putEmployeesId storage idParam (Schema.Success data)
   = (Refused 404 "Employee not found", storage)) /\
  (forall existing : Schema.Employee.t,
     mapGet (employees storage) (JNum id) = Some existing ->
     let storage' := snd (putEmployeesId storage idParam (Schema.Success data)) in
     fst (putEmployeesId storage idParam (Schema.Success data))
     = Sent 200 (mergeEmployee existing data) /\
     mapGet (employees storage') (JNum id) = Some (mergeEmployee existing data) /\
     (forall s : string,
        PartialInsertEmployee.salary data = Some s ->
        Schema.Employee.salary (mergeEmployee existing data) = s) /\
     (forall (key : number) (other : Schema.Employee.t),
        In (key, other) (employees storage) ->
        sameValueZero key id = false ->
        PartialInsertEmployee.email data = Some (Schema.Employee.email other) ->
        ~ NoDup (emails storage'))).
Proof.
  cbv zeta. unfold putEmployeesId, updateEmployee. split.
  - intros G. now rewrite G.
  - intros existing G. rewrite G. simpl.
    split; [reflexivity |]. split; [apply mapGet_mapSet_same |].
    split; [now intros s -> |].
    intros key other Hin Hk Hmail. unfold emails. simpl.
    apply (emails_mapSet_duplicate _ _ key _ other Hin Hk).
    simpl. now rewrite Hmail.
Qed.

Lemma putEmployeesId_is_unchecked_witness :
  let storage := Storage.new 1750000000000%float in
  let data := PartialInsertEmployee.mk None None (Some "mike.chen@company.com"%string)
                None None None None (Some "1"%string) None None in
  (exists existing,
     mapGet (employees storage) (JNum (parseInt "1")) = Some existing /\
     Schema.Employee.email existing = "sarah.johnson@company.com"%string) /\
  (exists updated,
     fst (putEmployeesId storage "1" (Schema.Success data)) = Sent 200 updated /\
     Schema.Employee.salary updated = "1"%string) /\
  ~ NoDup (emails (snd (putEmployeesId storage "1" (Schema.Success data)))).
Proof.
  cbv zeta. split; [eexists; split; reflexivity |].
  destruct (putEmployeesId_is_unchecked (Storage.new 1750000000000%float) "1"
              (PartialInsertEmployee.mk None None (Some "mike.chen@company.com"%string)
                 None None None None (Some "1"%string) None None)) as [_ H].
  destruct (H _ eq_refl) as [Hfst [_ [Hsal Hdup]]].
  split.
  - eexists. split; [exact Hfst |]. apply Hsal. reflexivity.
  - apply (Hdup 2%float
             (Schema.Employee.mk 2%float "Mike" "Chen" "mike.chen@company.com"
                (Some "+1-555-0124"%string) "full-time" "marketing" 2%float "95000"
                1660953600000%float "active" 1750000000000%float));
      [right; left; reflexivity | reflexivity | reflexivity].
Defined.

(** X21. A role whose band is not ordered (the parsed [minSalary] is not
    at most the parsed [maxSalary]: inverted bounds, or a bound that is
    not a number) can be stored by [createRole], and no employee can be
    created for it: every creation request that names it is answered 400
    and stores nothing. *)
Theorem postEmployees_unordered_band (storage : MemStorage) (now : Date)
    (data : Schema.InsertEmployee.t) (role : Schema.Role.t) :
  getRole storage (Schema.InsertEmployee.roleId data) = Some role ->
  le (parseFloat (Schema.Role.minSalary role))
     (parseFloat (Schema.Role.maxSalary role)) = false ->
  status (fst (postEmployees storage now (Schema.Success data))) = 400%Z /\
  snd (postEmployees storage now (Schema.Success data)) = storage.
Proof.
  intros Hrole Hband.
  assert (Hout : Role.isSalaryInRange (roleObjOf role)
                   (parseFloat (Schema.InsertEmployee.salary data)) = false).
  { unfold Role.isSalaryInRange, ge, le in *. simpl.
    destruct (PrimFloat.leb (parseFloat (Schema.Role.minSalary role))
                (parseFloat (Schema.InsertEmployee.salary data))) eqn:E1;
      [| reflexivity].
    destruct (PrimFloat.leb (parseFloat (Schema.InsertEmployee.salary data))
                (parseFloat (Schema.Role.maxSalary role))) eqn:E2; [| reflexivity].
    rewrite (leb_trans _ _ _ E1 E2) in Hband. discriminate Hband. }
  unfold postEmployees.
  destruct (getEmployeeByEmail storage (Schema.InsertEmployee.email data));
    [split; reflexivity |].
  rewrite Hrole, Hout. split; reflexivity.
Qed.

Lemma postEmployees_unordered_band_witness :
  let storage :=
    snd (createRole (Storage.new 1750000000000%float)
           (Schema.InsertRole.mk "Analyst" "" "finance" 1%float "95000" "75000" [])) in
  let data := Schema.InsertEmployee.mk "Kim" "Lee" "kim.lee@company.com" None
                "full-time" "finance" 4%float "80000" 1750000000000%float None in
  (exists role,
     getRole storage 4%float = Some role /\
     Schema.Role.minSalary role = "95000"%string /\
     Schema.Role.maxSalary role = "75000"%string) /\
  status (fst (postEmployees storage 1750000000000%float (Schema.Success data))) = 400%Z /\
  snd (postEmployees storage 1750000000000%float (Schema.Success data)) = storage.
Proof.
  cbv zeta. split; [eexists; repeat split |].
  apply (postEmployees_unordered_band _ 1750000000000%float
           (Schema.InsertEmployee.mk "Kim" "Lee" "kim.lee@company.com" None
              "full-time" "finance" 4%float "80000" 1750000000000%float None)
           (Schema.Role.mk 4%float "Analyst" "" "finance" 1%float "95000" "75000" []));
    reflexivity.
Defined.

End EmployeesMore.

(** ** The role handlers *)

Section RoleHandlers.

Import Builtins Storage StorageCrud StoreInvariant Routes RoutesCrud.
Local Open Scope list_scope.

(** X22. [POST /api/roles] with valid data answers 201 with the stored
    role, whatever its band (the bounds are not compared); a later
    [GET /api/roles/:id] whose parameter reads as the role's id answers
    200 with that role, and a parameter that reads as another number
    answers as it did before. *)
Theorem postRoles_then_getRolesId (storage : MemStorage) (data : Schema.InsertRole.t) :
  let role := fst (createRole storage data) in
  let storage' := snd (postRoles storage (Schema.Success data)) in
  fst (postRoles storage (Schema.Success data)) = Sent 201 role /\
  Schema.Role.minSalary role = Schema.InsertRole.minSalary data /\
  Schema.Role.maxSalary role = Schema.InsertRole.maxSalary data /\
  (forall idParam : string,
     sameValueZero (parseInt idParam) (currentRoleId storage) = true ->
     getRolesId storage' idParam = Sent 200 role) /\
  (forall idParam : string,
     sameValueZero (parseInt idParam) (currentRoleId storage) = false ->
     getRolesId storage' idParam = getRolesId storage idParam).
Proof.
  cbv zeta. unfold postRoles, getRolesId, getRole. simpl.
  split; [reflexivity |]. split; [reflexivity |]. split; [reflexivity |]. split.
  - intros idParam E.
    rewrite (mapGet_same_key _ _ _ E), mapGet_mapSet_same. reflexivity.
  - intros idParam E. rewrite mapGet_mapSet_other; [reflexivity |].
    now rewrite sameValueZero_sym.
Qed.

Lemma postRoles_then_getRolesId_witness :
  let storage := Storage.new 1750000000000%float in
  let data := Schema.InsertRole.mk "Analyst" "" "finance" 1%float "95000" "75000"
                ["Reporting"]%string in
  sameValueZero (parseInt " 4 ") (currentRoleId storage) = true /\
  getRolesId (snd (postRoles storage (Schema.Success data))) " 4 "
  = Sent 200 (Schema.Role.mk 4%float "Analyst" "" "finance" 1%float "95000" "75000"
                ["Reporting"]%string).
Proof.
  cbv zeta. split; [reflexivity |].
  apply (postRoles_then_getRolesId (Storage.new 1750000000000%float)
           (Schema.InsertRole.mk "Analyst" "" "finance" 1%float "95000" "75000"
              ["Reporting"]%string)).
  reflexivity.
Defined.

(** X23. [PUT /api/roles/:id] answers 404 and changes nothing when the id
    is not in the store; otherwise it answers 200 with the stored role,
    each of whose seven fields is the update's when the update has it and
    the old one when it has not (the responsibilities too, when the update
    has a list, even an empty one), the [id] being kept; the employees are
    not touched, and the role is what [GET /api/roles/:id] then returns. *)
Theorem putRolesId_merges (storage : MemStorage) (idParam : string)
    (data : PartialInsertRole.t) :
  (getRole storage (parseInt idParam) = None ->
   putRolesId storage idParam (Schema.Success data)
   = (Refused 404 "Role not found", storage)) /\
  (forall existing : Schema.Role.t,
     getRole storage (parseInt idParam) = Some existing ->
     let updated := mergeRole existing data in
     let storage' := snd (putRolesId storage idParam (Schema.Success data)) in
     fst (putRolesId storage idParam (Schema.Success data)) = Sent 200 updated /\
     getRolesId storage' idParam = Sent 200 updated /\
     Schema.Role.id updated = Schema.Role.id existing /\
     (
      Schema.Role.title updated
      = match PartialInsertRole.title data with
        | Some given => given
        | None => Schema.Role.title existing
        end /\
      Schema.Role.description updated
      = match PartialInsertRole.description data with
        | Some given => given
        | None => Schema.Role.description existing
        end /\
      Schema.Role.department updated
      = match PartialInsertRole.department data with
        | Some given => given
        | None => Schema.Role.department existing
        end /\
      Schema.Role.level updated
      = match PartialInsertRole.level data with
        | Some given => given
        | None => Schema.Role.level existing
        end /\
      Schema.Role.minSalary updated
      = match PartialInsertRole.minSalary data with
        | Some given => given
        | None => Schema.Role.minSalary existing
        end /\
      Schema.Role.maxSalary updated
      = match PartialInsertRole.maxSalary data with
        | Some given => given
        | None => Schema.Role.maxSalary existing
        end /\
      Schema.Role.responsibilities updated
      = match PartialInsertRole.responsibilities data with
        | Some given => given
        | None => Schema.Role.responsibilities existing
        end) /\
     (forall l : list string,
        PartialInsertRole.responsibilities data = Some l ->
        Schema.Role.responsibilities updated = l) /\
     (PartialInsertRole.responsibilities data = None ->
      Schema.Role.responsibilities updated = Schema.Role.responsibilities existing) /\
     employees storage' = employees storage).
Proof.
  unfold putRolesId, updateRole, getRolesId, getRole. split.
  - intros G. now rewrite G.
  - intros existing G. rewrite G. simpl.
    rewrite mapGet_mapSet_same.
    split; [reflexivity |]. split; [reflexivity |]. split; [reflexivity |].
    split; [unfold withDefault; repeat split |].
    split; [now intros l -> |]. split; [now intros -> | reflexivity].
Qed.

Lemma putRolesId_merges_witness :
  let storage := Storage.new 1750000000000%float in
  let data := PartialInsertRole.mk None None None None (Some "90000"%string) None
                (Some []) in
  (exists existing, getRole storage (parseInt "1") = Some existing) /\
  exists updated,
    getRolesId (snd (putRolesId storage "1" (Schema.Success data))) "1"
    = Sent 200 updated /\
    Schema.Role.minSalary updated = "90000"%string /\
    Schema.Role.maxSalary updated = "95000"%string /\
    Schema.Role.responsibilities updated = [].
Proof.
  cbv zeta. split; [eexists; reflexivity |].
  destruct (putRolesId_merges (Storage.new 1750000000000%float) "1"
              (PartialInsertRole.mk None None None None (Some "90000"%string) None
                 (Some []))) as [_ H].
  destruct (H _ eq_refl)
    as [_ [Hget [_ [[_ [_ [_ [_ [Hmin [Hmax _]]]]]] [Hresp _]]]]].
  eexists. split; [exact Hget |]. split; [exact Hmin |]. split; [exact Hmax |].
  apply Hresp. reflexivity.
Defined.

Variable numberToString : number -> string.

(** X24. After [DELETE /api/roles/:id] on a store with distinct keys the
    role is gone ([GET /api/roles/:id] answers 404), while its employees
    stay stored: a payslip calculation for one of them, which passes the
    guard, is answered 404 [Employee not found], and no call into the
    domain classes is made. *)
Theorem deleteRolesId_then_calculate (storage : MemStorage) (idParam : string)
    (reqBody employeeId hoursWorked : JsValue) (employee : Schema.Employee.t) :
  wellKeyed storage = true ->
  mapGet (employees storage) employeeId = Some employee ->
  sameValueZero (Schema.Employee.roleId employee) (parseInt idParam) = true ->
  getProperty reqBody "employeeId" = Ok employeeId ->
  getProperty reqBody "hoursWorked" = Ok hoursWorked ->
  toBoolean employeeId = true -> toBoolean hoursWorked = true ->
  let storage' := snd (deleteRolesId storage idParam) in
  getRolesId storage' idParam = Refused 404 "Role not found" /\
  getEmployeeByEmail storage' (Schema.Employee.email employee)
  = getEmployeeByEmail storage (Schema.Employee.email employee) /\
  postPayslipsCalculate numberToString storage' reqBody
  = (json 404 (Message "Employee not found"), []).
Proof.
  intros K G E He Hh Te Th. cbv zeta.
  unfold wellKeyed in K. apply andb_prop in K. destruct K as [Kr _].
  assert (S' : snd (deleteRolesId storage idParam)
               = mk (fst (mapDelete (roles storage) (parseInt idParam)))
                    (employees storage) (currentRoleId storage)
                    (currentEmployeeId storage)).
  { unfold deleteRolesId, deleteRole.
    destruct (mapDelete (roles storage) (parseInt idParam)) as [roles' [|]];
      reflexivity. }
  rewrite S'.
  pose proof (mapGet_mapDelete_same (roles storage) (parseInt idParam) Kr) as Hgone.
  split; [| split].
  - unfold getRolesId, getRole. simpl. now rewrite Hgone.
  - reflexivity.
  - destruct (getProperty_defined _ _ _ "overtimeHours" He) as [o Ho].
    destruct (getProperty_defined _ _ _ "deductions" He) as [d Hd].
    rewrite (calculate_past_guard numberToString _ _ _ _ _ _ He Hh Ho Hd Te Th).
    unfold getEmployee. simpl. rewrite G.
    now rewrite (mapGet_same_key _ _ _ E), Hgone.
Qed.

End RoleHandlers.

Section RoleHandlersExamples.

Import Builtins Storage StorageCrud StoreInvariant Routes RoutesCrud.

Lemma deleteRolesId_then_calculate_witness :
  let storage := Storage.new 1750000000000%float in
  let reqBody := JObj [("employeeId", JNum 3%float); ("hoursWorked", JNum 80%float)] in
  wellKeyed storage = true /\
  fst (deleteRolesId storage "3") = Sent 200 "Role deleted successfully"%string /\
  forall numberToString : number -> string,
    postPayslipsCalculate numberToString (snd (deleteRolesId storage "3")) reqBody
    = (json 404 (Message "Employee not found"), []).
Proof.
  cbv zeta. split; [reflexivity |]. split; [reflexivity |].
  intros numberToString.
  apply (deleteRolesId_then_calculate numberToString
           (Storage.new 1750000000000%float) "3"
           (JObj [("employeeId", JNum 3%float); ("hoursWorked", JNum 80%float)])
           (JNum 3%float) (JNum 80%float)
           (Schema.Employee.mk 3%float "Alex" "Rivera" "alex.rivera@company.com"
              (Some "+1-555-0125"%string) "part-time" "engineering" 3%float "35"
              1686355200000%float "active" 1750000000000%float)
           eq_refl eq_refl eq_refl eq_refl eq_refl eq_refl eq_refl).
Defined.

End RoleHandlersExamples.

(** ** From the payslips page to the calculate handler *)

Section PageToHandler.

Import Builtins Routes PayslipsPage.

Lemma toBoolean_numberThroughJson (n : number) :
  toBoolean (numberThroughJson n)
  = PrimFloat.is_finite n && negb (PrimFloat.eqb n 0%float).
Proof.
  unfold numberThroughJson. destruct (PrimFloat.is_finite n) eqn:F; [| reflexivity].
  simpl. destruct (PrimFloat.eqb n 0%float) eqn:Z; [reflexivity |].
  simpl. rewrite Z. simpl.
  unfold PrimFloat.is_finite in F. apply negb_true_iff in F.
  apply orb_false_elim in F. destruct F as [-> _]. reflexivity.
Qed.

Variable numberToString : number -> string.

(** X25. What the page posts is refused by the handler's guard exactly
    when the employee id or the hours, as [parseInt] and [parseFloat]
    read the page's fields, is zero or not a finite number: then the
    answer is 400 [Employee ID and hours worked are required] and nothing
    is calculated, although the page itself accepted the fields (a field
    holding ["0"] is not empty). Otherwise the answer is not a 400. *)
Theorem page_request_meets_guard (storage : Storage.MemStorage)
    (selectedEmployee hours payPeriodFrom payPeriodTo overtime deducted : string)
    (data : CalculateData) :
  handleCalculate selectedEmployee hours payPeriodFrom payPeriodTo overtime deducted
  = Some data ->
  let usable (n : number) := PrimFloat.is_finite n && negb (PrimFloat.eqb n 0%float) in
  employeeId data = parseInt selectedEmployee /\
  hoursWorked data = parseFloat hours /\
  (usable (parseInt selectedEmployee) && usable (parseFloat hours) = false ->
   postPayslipsCalculate numberToString storage (requestBody data)
   = (json 400 (Message "Employee ID and hours worked are required"), [])) /\
  (usable (parseInt selectedEmployee) && usable (parseFloat hours) = true ->
   status (fst (postPayslipsCalculate numberToString storage (requestBody data)))
   <> 400%Z).
Proof.
  unfold handleCalculate. destruct (_ || _); [discriminate |].
  intros H. injection H as <-. cbv zeta. simpl employeeId. simpl hoursWorked.
  split; [reflexivity |]. split; [reflexivity |].
  set (body := requestBody _).
  assert (He : getProperty body "employeeId"
               = Ok (numberThroughJson (parseInt selectedEmployee))) by reflexivity.
  assert (Hh : getProperty body "hoursWorked"
               = Ok (numberThroughJson (parseFloat hours))) by reflexivity.
  split.
  - intros U. apply (calculate_guard numberToString storage body _ _ He Hh).
    rewrite !toBoolean_numberThroughJson.
    apply andb_false_iff in U. exact U.
  - intros U. apply andb_prop in U. destruct U as [Ue Uh].
    rewrite <- toBoolean_numberThroughJson in Ue, Uh.
    destruct (getProperty_defined _ _ _ "overtimeHours" He) as [o Ho].
    destruct (getProperty_defined _ _ _ "deductions" He) as [d Hd].
    rewrite (calculate_past_guard numberToString _ _ _ _ _ _ He Hh Ho Hd Ue Uh).
    destruct (Storage.getEmployee storage _); [| discriminate].
    cbv zeta. destruct (Employee.createEmployee _ _ _ _ _ _ _ _); [| discriminate].
    destruct (PayslipCalculator.createCalculator _); [| discriminate].
    destruct (toString numberToString _); [| discriminate].
    destruct (toString numberToString _); [| discriminate].
    destruct (toString numberToString _); discriminate.
Qed.

End PageToHandler.

Section PageToHandlerExamples.

Import Builtins Routes PayslipsPage.

Lemma page_request_meets_guard_witness :
  handleCalculate "1" "0" "2025-06-01" "2025-06-30" "" ""
  = Some (mkData 1%float 0%float 0%float 0%float) /\
  forall numberToString : number -> string,
    postPayslipsCalculate numberToString (Storage.new 1750000000000%float)
      (requestBody (mkData 1%float 0%float 0%float 0%float))
    = (json 400 (Message "Employee ID and hours worked are required"), []).
Proof.
  split; [reflexivity |].
  intros numberToString.
  apply (page_request_meets_guard numberToString (Storage.new 1750000000000%float)
           "1" "0" "2025-06-01" "2025-06-30" "" ""
           (mkData 1%float 0%float 0%float 0%float) eq_refl).
  reflexivity.
Defined.

End PageToHandlerExamples.

(** ** Deleting an employee *)

Section DeleteEmployee.

Import Builtins Storage StorageCrud StoreInvariant Routes RoutesCrud.
Local Open Scope list_scope.

Lemma find_email_absent (l : list Schema.Employee.t) (email : string) :
  ~ In email (map Schema.Employee.email l) ->
  find (fun emp => String.eqb (Schema.Employee.email emp) email) l = None.
Proof.
  induction l as [| e t IH]; simpl; [reflexivity |].
  intros H. destruct (String.eqb_spec (Schema.Employee.email e) email) as [E | N].
  - exfalso. apply H. now left.
  - apply IH. intros Hin. apply H. now right.
Qed.

Lemma emails_mapDelete (m : list (number * Schema.Employee.t)) (k : number)
    (e : Schema.Employee.t) :
  mapGet m (JNum k) = Some e ->
  NoDup (map Schema.Employee.email (mapValues m)) ->
  ~ In (Schema.Employee.email e)
       (map Schema.Employee.email (mapValues (fst (mapDelete m k)))).
Proof.
  unfold mapValues. induction m as [| [k0 w] t IH]; simpl; [discriminate |].
  intros G Hnd. inversion Hnd as [| x l Hx Ht]; subst.
  destruct (sameValueZero k0 k) eqn:E; simpl.
  - injection G as ->. exact Hx.
  - specialize (IH G Ht).
    destruct (mapDelete t k) as [t' found]. simpl in *.
    intros [Heq | Hin]; [| exact (IH Hin)].
    apply Hx. rewrite Heq. apply in_map. exact (mapGet_In _ _ _ G).
Qed.

(** X26. [DELETE /api/employees/:id] answers 404 and changes nothing when
    the id is not in the store. When it is, the answer is 200, the roles
    are untouched, and, in a store with distinct keys and distinct
    emails, the employee is no longer returned for that id and its email
    is free again: no stored employee has it. *)
Theorem deleteEmployeesId_frees_email (storage : MemStorage) (idParam : string) :
  (mapGet (employees storage) (JNum (parseInt idParam)) = None ->
   deleteEmployeesId storage idParam = (Refused 404 "Employee not found", storage)) /\
  (forall employee : Schema.Employee.t,
     mapGet (employees storage) (JNum (parseInt idParam)) = Some employee ->
     let storage' := snd (deleteEmployeesId storage idParam) in
     fst (deleteEmployeesId storage idParam) = Sent 200 "Employee deleted successfully" /\
     roles storage' = roles storage /\
     (wellKeyed storage = true ->
      getEmployeesId storage' idParam = Refused 404 "Employee not found") /\
     (NoDup (emails storage) ->
      getEmployeeByEmail storage' (Schema.Employee.email employee) = None)).
Proof.
  unfold deleteEmployeesId, deleteEmployee.
  pose proof (mapDelete_found (employees storage) (parseInt idParam)) as Hfound.
  split.
  - intros G. rewrite G in Hfound.
    assert (Hsame : fst (mapDelete (employees storage) (parseInt idParam))
                    = employees storage).
    { clear Hfound. induction (employees storage) as [| [k0 w] t IH]; simpl in *;
        [reflexivity |].
      destruct (sameValueZero k0 (parseInt idParam)); [discriminate |].
      specialize (IH G). destruct (mapDelete t (parseInt idParam)) as [t' f].
      simpl in *. now rewrite IH. }
    destruct (mapDelete (employees storage) (parseInt idParam)) as [employees' found].
    simpl in *. subst. now destruct storage.
  - intros employee G. rewrite G in Hfound. cbv zeta.
    pose proof (emails_mapDelete _ _ _ G) as Hmail.
    pose proof (mapGet_mapDelete_same (employees storage) (parseInt idParam)) as Hgone.
    destruct (mapDelete (employees storage) (parseInt idParam)) as [employees' found].
    simpl in *. subst found. simpl.
    split; [reflexivity |]. split; [reflexivity |]. split.
    + intros K. unfold wellKeyed in K. apply andb_prop in K. destruct K as [_ Ke].
      unfold getEmployeesId, getEmployee. simpl. now rewrite (Hgone Ke).
    + intros Hnd. unfold getEmployeeByEmail. simpl.
      apply find_email_absent. exact (Hmail Hnd).
Qed.

Lemma deleteEmployeesId_frees_email_witness :
  let storage := Storage.new 1750000000000%float in
  (exists employee,
     mapGet (employees storage) (JNum (parseInt "2")) = Some employee /\
     Schema.Employee.email employee = "mike.chen@company.com"%string) /\
  NoDup (emails storage) /\
  getEmployeeByEmail (snd (deleteEmployeesId storage "2")) "mike.chen@company.com"
  = None.
Proof.
  cbv zeta.
  assert (H : NoDup (emails (Storage.new 1750000000000%float))).
  { cbv. repeat constructor; simpl; intuition discriminate. }
  split; [eexists; split; reflexivity |]. split; [exact H |].
  destruct (deleteEmployeesId_frees_email (Storage.new 1750000000000%float) "2")
    as [_ Hdel].
  destruct (Hdel _ eq_refl) as [_ [_ [_ Hfree]]].
  exact (Hfree H).
Defined.

End DeleteEmployee.
